(** * Triton attention backend: offset metadata and CUDA-graph capture state

    A shallow embedding of
    [python/sglang/srt/layers/attention/triton_backend.py]
    (class [TritonAttnBackend]) together with the properties of its
    metadata builder, of the capture/replay buffers and of the sub-batch
    slicing.

    Conventions of the embedding.
    - A one-dimensional integer tensor is a dtype and the list of its
      elements; every operation that stores into a tensor reduces the value
      to the two's-complement range of the destination dtype.
    - Tensors that the backend creates live in a heap and are named by
      their location, so that two names for one buffer see the same
      contents.  Tensors that arrive inside a batch are only read and are
      plain values.
    - A raised Python exception is a [Raise] result; the heap and the
      attributes written before the exception stay written.
    - The attention kernels, the KV-cache pool and the request-to-token
      table are collaborators outside this module; [forward_extend] and
      [forward_decode] are embedded up to the length and offset arguments
      they hand to the kernel. *)

From Stdlib Require Import ZArith List Lia Bool.
From stdpp Require Import base numbers option list.

Local Open Scope Z_scope.

(** ** Python exceptions and results *)

Inductive PyError : Type :=
  | RuntimeError | IndexError | TypeError | AttributeError | ZeroDivisionError.

Inductive Res (A : Type) : Type :=
  | Ok (a : A)
  | Raise (e : PyError).
Arguments Ok {A} a.
Arguments Raise {A} e.

Definition res_bind {A B} (m : Res A) (k : A -> Res B) : Res B :=
  match m with
  | Ok a => k a
  | Raise e => Raise e
  end.

Declare Scope res_scope.
Delimit Scope res_scope with res.
Notation "x <- m ;; k" := (res_bind m (fun x => k))
  (at level 100, m at next level, right associativity) : res_scope.

(** ** Integer dtypes *)

Module Dtype.

Inductive int_dtype : Type := int32 | int64.

Inductive float_dtype : Type := float16 | float32.

Definition bits (d : int_dtype) : Z :=
  match d with int32 => 32 | int64 => 64 end.

Definition float_bits (d : float_dtype) : Z :=
  match d with float16 => 16 | float32 => 32 end.

Definition min_value (d : int_dtype) : Z := - 2 ^ (bits d - 1).
Definition max_value (d : int_dtype) : Z := 2 ^ (bits d - 1) - 1.

Definition in_range (d : int_dtype) (z : Z) : Prop :=
  min_value d <= z <= max_value d.

(** Conversion of an integer to dtype [d]: two's-complement reduction. *)
Definition wrap (d : int_dtype) (z : Z) : Z :=
  (z + 2 ^ (bits d - 1)) mod 2 ^ bits d - 2 ^ (bits d - 1).

(** Result dtype of a binary operation on two integer tensors. *)
Definition promote (a b : int_dtype) : int_dtype :=
  match a, b with
  | int32, int32 => int32
  | _, _ => int64
  end.

End Dtype.
Export Dtype.

(** ** Integer tensors of rank one *)

Record IntTensor : Type := mkIntTensor {
  dtype : int_dtype;
  data : list Z
}.

Definition shape0 (t : IntTensor) : Z := Z.of_nat (length (data t)).

Definition wf_tensor (t : IntTensor) : Prop :=
  Forall (in_range (dtype t)) (data t).

(** *** Python slices [a[start:stop]] (step 1) *)

(** A bound of a slice over a sequence of length [n]: a negative bound
    counts from the end, and every bound is clipped to [0, n]. *)
Definition slice_bound (n : Z) (i : option Z) (default : Z) : Z :=
  match i with
  | None => default
  | Some i => if i <? 0 then Z.max (i + n) 0 else Z.min i n
  end.

(** First position and number of positions selected by [start:stop]. *)
Definition slice_range (n : nat) (start stop : option Z) : nat * nat :=
  let s := slice_bound (Z.of_nat n) start 0 in
  let e := slice_bound (Z.of_nat n) stop (Z.of_nat n) in
  (Z.to_nat s, Z.to_nat (e - s)).

Definition slice_list {A} (xs : list A) (start stop : option Z) : list A :=
  let '(s, k) := slice_range (length xs) start stop in
  take k (drop s xs).

(** [t[start:stop]] *)
Definition getitem_slice (t : IntTensor) (start stop : option Z) : IntTensor :=
  {| dtype := dtype t; data := slice_list (data t) start stop |}.

(** Broadcasting a rank-one source to [n] positions: the sizes agree, or
    the source has exactly one element. *)
Definition broadcast_to (n : nat) (xs : list Z) : Res (list Z) :=
  if (length xs =? n)%nat then Ok xs
  else match xs with
       | [x] => Ok (replicate n x)
       | _ => Raise RuntimeError
       end.

(** [dst[start:stop] = src] on the elements of a destination of dtype [d]:
    the source is broadcast to the slice and converted to [d]. *)
Definition assign_slice (d : int_dtype) (dst : list Z)
    (start stop : option Z) (src : IntTensor) : Res (list Z) :=
  let '(s, k) := slice_range (length dst) start stop in
  (vals <- broadcast_to k (data src) ;;
   Ok (take s dst ++ map (wrap d) vals ++ drop (s + k) dst))%res.

(** *** Indexing by a list of integer indices, [t[idx]] *)

Definition getitem_one (xs : list Z) (i : Z) : Res Z :=
  let n := Z.of_nat (length xs) in
  if (- n <=? i) && (i <? n) then
    match xs !! Z.to_nat (if i <? 0 then i + n else i) with
    | Some x => Ok x
    | None => Raise IndexError
    end
  else Raise IndexError.

Fixpoint getitem_list (xs : list Z) (idx : list Z) : Res (list Z) :=
  match idx with
  | [] => Ok []
  | i :: idx' =>
      (x <- getitem_one xs i ;;
       r <- getitem_list xs idx' ;;
       Ok (x :: r))%res
  end.

Definition getitem_index (t : IntTensor) (idx : list Z) : Res IntTensor :=
  (vals <- getitem_list (data t) idx ;;
   Ok {| dtype := dtype t; data := vals |})%res.

(** *** Reductions and arithmetic *)

(** Running sums; integer inputs accumulate in int64. *)
Fixpoint cumsum_from (acc : Z) (xs : list Z) : list Z :=
  match xs with
  | [] => []
  | x :: r => let a := wrap int64 (acc + x) in a :: cumsum_from a r
  end.

(** [torch.cumsum(t, dim=0)] *)
Definition torch_cumsum (t : IntTensor) : IntTensor :=
  {| dtype := int64; data := cumsum_from 0 (data t) |}.

(** [torch.sum(t).item()]; integer inputs are summed in int64. *)
Definition torch_sum_item (t : IntTensor) : Z :=
  fold_left (fun acc x => wrap int64 (acc + x)) (data t) 0.

(** [torch.max(t).item()]; the reduction of an empty tensor raises. *)
Definition torch_max_item (t : IntTensor) : Res Z :=
  match data t with
  | [] => Raise RuntimeError
  | x :: r => Ok (fold_left Z.max r x)
  end.

(** Pairing the elements of two rank-one operands under broadcasting. *)
Definition broadcast2 (xs ys : list Z) : Res (list (Z * Z)) :=
  if (length xs =? length ys)%nat then Ok (zip xs ys)
  else match xs, ys with
       | [x], _ => Ok (map (fun y => (x, y)) ys)
       | _, [y] => Ok (map (fun x => (x, y)) xs)
       | _, _ => Raise RuntimeError
       end.

(** [a - b] *)
Definition torch_sub (a b : IntTensor) : Res IntTensor :=
  let d := promote (dtype a) (dtype b) in
  (ps <- broadcast2 (data a) (data b) ;;
   Ok {| dtype := d; data := map (fun p => wrap d (fst p - snd p)) ps |})%res.

(** ** The heap of backend-owned tensors *)

(** The reduction buffer of the decode kernel: a [rows] x [cols] tensor of
    dtype [fdtype].  Its elements are kept as raw bit patterns, one per
    flat position. *)
Record FloatTensor : Type := mkFloatTensor {
  fdtype : float_dtype;
  rows : Z;
  cols : Z;
  raw : Z -> Z
}.

Inductive HeapObj : Type :=
  | IntObj (t : IntTensor)
  | FloatObj (t : FloatTensor).

Definition loc : Type := nat.

(** [ForwardMetadata] is the 4-tuple
    [(start_loc, attn_logits, max_seq_len, max_extend_len)]; a component is
    [None] where the Python tuple holds [None]. *)
Definition ForwardMetadata : Type :=
  (option loc * option loc * option Z * option Z)%type.

(** The attributes of a [TritonAttnBackend] instance.  The three
    [cuda_graph_*] attributes assigned by [init_cuda_graph_state] do not
    exist before that call: [None] stands for a missing attribute. *)
Record TritonAttnBackend : Type := mkBackend {
  num_head : Z;
  reduce_dtype : float_dtype;
  forward_metadata : option ForwardMetadata;
  cuda_graph_max_seq_len : Z;
  cuda_graph_max_total_num_tokens : option Z;
  cuda_graph_start_loc : option loc;
  cuda_graph_attn_logits : option loc
}.

(** The state the methods run in: the heap, the bits that freshly
    allocated (uninitialised) device memory happens to hold at each
    location, and the backend instance. *)
Record World : Type := mkWorld {
  heap : list HeapObj;
  uninit : loc -> Z -> Z;
  self : TritonAttnBackend
}.

(** ** The state-and-exception monad of a method body *)

Definition M (A : Type) : Type := World -> World * Res A.

Definition ret {A} (a : A) : M A := fun w => (w, Ok a).

Definition raise {A} (e : PyError) : M A := fun w => (w, Raise e).

Definition bind {A B} (m : M A) (k : A -> M B) : M B :=
  fun w =>
    match m w with
    | (w', Ok a) => k a w'
    | (w', Raise e) => (w', Raise e)
    end.

Definition lift {A} (r : Res A) : M A := fun w => (w, r).

Declare Scope m_scope.
Delimit Scope m_scope with M.
Notation "x <- m ;; k" := (bind m (fun x => k))
  (at level 100, m at next level, right associativity) : m_scope.
Notation "m ;;; k" := (bind m (fun _ => k))
  (at level 100, right associativity) : m_scope.

Definition get_self : M TritonAttnBackend := fun w => (w, Ok (self w)).

Definition set_self (f : TritonAttnBackend -> TritonAttnBackend) : M unit :=
  fun w => ({| heap := heap w; uninit := uninit w; self := f (self w) |}, Ok tt).

(** Reading an attribute that may not exist yet. *)
Definition get_attr {A} (f : TritonAttnBackend -> option A) : M A :=
  fun w =>
    match f (self w) with
    | Some a => (w, Ok a)
    | None => (w, Raise AttributeError)
    end.

Definition alloc (o : HeapObj) : M loc :=
  fun w =>
    ({| heap := heap w ++ [o]; uninit := uninit w; self := self w |},
     Ok (length (heap w))).

Definition load_int (r : loc) : M IntTensor :=
  fun w =>
    match heap w !! r with
    | Some (IntObj t) => (w, Ok t)
    | _ => (w, Raise TypeError)
    end.

Definition store_int (r : loc) (t : IntTensor) : M unit :=
  fun w =>
    ({| heap := <[r := IntObj t]> (heap w); uninit := uninit w; self := self w |},
     Ok tt).

(** *** Tensor operations that allocate or mutate *)

(** [torch.zeros_like(t, dtype=d)] *)
Definition torch_zeros_like (t : IntTensor) (d : int_dtype) : M loc :=
  alloc (IntObj {| dtype := d; data := replicate (length (data t)) 0 |}).

(** [torch.zeros((n,), dtype=d)]; a negative dimension raises. *)
Definition torch_zeros (n : Z) (d : int_dtype) : M loc :=
  if n <? 0 then raise RuntimeError
  else alloc (IntObj {| dtype := d; data := replicate (Z.to_nat n) 0 |}).

(** [torch.empty((r, c), dtype=d)]: the contents are whatever the memory
    held; a negative dimension raises. *)
Definition torch_empty (r c : Z) (d : float_dtype) : M loc :=
  if (r <? 0) || (c <? 0) then raise RuntimeError
  else fun w =>
    alloc (FloatObj {| fdtype := d; rows := r; cols := c;
                       raw := fun i => uninit w (length (heap w)) i
                                       mod 2 ^ float_bits d |}) w.

(** [dst.zero_()] *)
Definition zero_ (dst : loc) : M unit :=
  (t <- load_int dst ;;
   store_int dst {| dtype := dtype t;
                    data := replicate (length (data t)) 0 |})%M.

(** [dst[start:stop] = src], in place. *)
Definition setitem_slice (dst : loc) (start stop : option Z)
    (src : IntTensor) : M unit :=
  (t <- load_int dst ;;
   vals <- lift (assign_slice (dtype t) (data t) start stop src) ;;
   store_int dst {| dtype := dtype t; data := vals |})%M.

(** ** The batch handed over by the scheduler *)

(** Modelled from the spec: [ForwardMode] is declared in
    [model_executor/forward_batch_info.py]; the execution mode of a batch
    is one of EXTEND and DECODE, and [is_decode] tells them apart. *)
Inductive ForwardMode : Type := EXTEND | DECODE.

Definition is_decode (m : ForwardMode) : bool :=
  match m with DECODE => true | EXTEND => false end.

(** Modelled from the spec: [ForwardBatch] is declared in
    [model_executor/forward_batch_info.py]; the record keeps the fields
    this backend reads: the mode, the per-request arrays (sequence lengths,
    cached prefix lengths, new-token lengths and their offsets) and the
    optional sub-batch index list. *)
Record ForwardBatch : Type := mkForwardBatch {
  forward_mode : ForwardMode;
  seq_lens : IntTensor;
  extend_prefix_lens : IntTensor;
  extend_seq_lens : IntTensor;
  extend_start_loc : IntTensor;
  local_seq_indices : option (list Z)
}.

(** ** [TritonAttnBackend] *)

(** Modelled from the spec: the model runner and the server arguments are
    declared elsewhere; [__init__] reads the head count, the
    tensor-parallel degree, the context length and two boolean flags
    (absent flags read as [False]). *)
Record ModelConfig : Type := mkModelConfig {
  num_attention_heads : Z;
  context_len : Z
}.

Record ModelRunner : Type := mkModelRunner {
  model_config : ModelConfig;
  tp_size : Z
}.

Record ServerArgs : Type := mkServerArgs {
  enable_mla_dp : bool;
  triton_attention_reduce_in_fp32 : bool
}.

(** [__init__]: Python's [//] is floor division and raises on a zero
    divisor. *)
Definition __init__ (args : ServerArgs) (model_runner : ModelRunner)
  : Res TritonAttnBackend :=
  (nh <- (if enable_mla_dp args
          then Ok (num_attention_heads (model_config model_runner))
          else if tp_size model_runner =? 0 then Raise ZeroDivisionError
          else Ok (num_attention_heads (model_config model_runner)
                   / tp_size model_runner)) ;;
   Ok {| num_head := nh;
         reduce_dtype := if triton_attention_reduce_in_fp32 args
                         then float32 else float16;
         forward_metadata := None;
         cuda_graph_max_seq_len := context_len (model_config model_runner);
         cuda_graph_max_total_num_tokens := None;
         cuda_graph_start_loc := None;
         cuda_graph_attn_logits := None |})%res.

Definition set_forward_metadata (md : ForwardMetadata)
    (b : TritonAttnBackend) : TritonAttnBackend :=
  {| num_head := num_head b;
     reduce_dtype := reduce_dtype b;
     forward_metadata := Some md;
     cuda_graph_max_seq_len := cuda_graph_max_seq_len b;
     cuda_graph_max_total_num_tokens := cuda_graph_max_total_num_tokens b;
     cuda_graph_start_loc := cuda_graph_start_loc b;
     cuda_graph_attn_logits := cuda_graph_attn_logits b |}.

Definition set_cuda_graph_max_total_num_tokens (n : Z)
    (b : TritonAttnBackend) : TritonAttnBackend :=
  {| num_head := num_head b;
     reduce_dtype := reduce_dtype b;
     forward_metadata := forward_metadata b;
     cuda_graph_max_seq_len := cuda_graph_max_seq_len b;
     cuda_graph_max_total_num_tokens := Some n;
     cuda_graph_start_loc := cuda_graph_start_loc b;
     cuda_graph_attn_logits := cuda_graph_attn_logits b |}.

Definition set_cuda_graph_start_loc (r : loc)
    (b : TritonAttnBackend) : TritonAttnBackend :=
  {| num_head := num_head b;
     reduce_dtype := reduce_dtype b;
     forward_metadata := forward_metadata b;
     cuda_graph_max_seq_len := cuda_graph_max_seq_len b;
     cuda_graph_max_total_num_tokens := cuda_graph_max_total_num_tokens b;
     cuda_graph_start_loc := Some r;
     cuda_graph_attn_logits := cuda_graph_attn_logits b |}.

Definition set_cuda_graph_attn_logits (r : loc)
    (b : TritonAttnBackend) : TritonAttnBackend :=
  {| num_head := num_head b;
     reduce_dtype := reduce_dtype b;
     forward_metadata := forward_metadata b;
     cuda_graph_max_seq_len := cuda_graph_max_seq_len b;
     cuda_graph_max_total_num_tokens := cuda_graph_max_total_num_tokens b;
     cuda_graph_start_loc := cuda_graph_start_loc b;
     cuda_graph_attn_logits := Some r |}.

(** [seq_lens] as both modes use it: re-sliced by the sub-batch index
    list when the batch carries one. *)
Definition effective_seq_lens (forward_batch : ForwardBatch) : Res IntTensor :=
  match local_seq_indices forward_batch with
  | Some idx => getitem_index (seq_lens forward_batch) idx
  | None => Ok (seq_lens forward_batch)
  end.

(** [prefix_lens] of the extend branch. *)
Definition effective_prefix_lens (forward_batch : ForwardBatch) : Res IntTensor :=
  match local_seq_indices forward_batch with
  | Some idx => getitem_index (extend_prefix_lens forward_batch) idx
  | None => Ok (extend_prefix_lens forward_batch)
  end.

(** [init_forward_metadata(self, forward_batch)] *)
Definition init_forward_metadata (forward_batch : ForwardBatch) : M unit :=
  (seq_lens <- lift (effective_seq_lens forward_batch) ;;
   if is_decode (forward_mode forward_batch) then
     start_loc <- torch_zeros_like seq_lens int32 ;;
     setitem_slice start_loc (Some 1) None
       (torch_cumsum (getitem_slice seq_lens None (Some (-1)))) ;;;
     let total_num_tokens := torch_sum_item seq_lens in
     b <- get_self ;;
     attn_logits <- torch_empty (num_head b) total_num_tokens (reduce_dtype b) ;;
     max_seq_len <- lift (if 0 <? shape0 seq_lens
                          then torch_max_item seq_lens else Ok 0) ;;
     set_self (set_forward_metadata
                 (Some start_loc, Some attn_logits, Some max_seq_len, None))
   else
     prefix_lens <- lift (effective_prefix_lens forward_batch) ;;
     max_extend_len <- lift (if 0 <? shape0 seq_lens
                             then (d <- torch_sub seq_lens prefix_lens ;;
                                   torch_max_item d)%res
                             else Ok 0) ;;
     set_self (set_forward_metadata (None, None, None, Some max_extend_len)))%M.

(** [init_cuda_graph_state(self, max_bs)] *)
Definition init_cuda_graph_state (max_bs : Z) : M unit :=
  (b <- get_self ;;
   set_self (set_cuda_graph_max_total_num_tokens
               (max_bs * cuda_graph_max_seq_len b)) ;;;
   start_loc <- torch_zeros max_bs int32 ;;
   set_self (set_cuda_graph_start_loc start_loc) ;;;
   total <- get_attr cuda_graph_max_total_num_tokens ;;
   attn_logits <- torch_empty (num_head b) total (reduce_dtype b) ;;
   set_self (set_cuda_graph_attn_logits attn_logits))%M.

(** [init_forward_metadata_capture_cuda_graph(self, bs, req_pool_indices,
    seq_lens)] *)
Definition init_forward_metadata_capture_cuda_graph
    (bs : Z) (req_pool_indices seq_lens : IntTensor) : M unit :=
  (start_loc <- get_attr cuda_graph_start_loc ;;
   attn_logits <- get_attr cuda_graph_attn_logits ;;
   b <- get_self ;;
   set_self (set_forward_metadata
               (Some start_loc, Some attn_logits,
                Some (cuda_graph_max_seq_len b), None)))%M.

(** [init_forward_metadata_replay_cuda_graph(self, bs, req_pool_indices,
    seq_lens)] *)
Definition init_forward_metadata_replay_cuda_graph
    (bs : Z) (req_pool_indices seq_lens : IntTensor) : M unit :=
  (start_loc <- get_attr cuda_graph_start_loc ;;
   zero_ start_loc ;;;
   start_loc <- get_attr cuda_graph_start_loc ;;
   setitem_slice start_loc (Some 1) (Some bs)
     (torch_cumsum (getitem_slice seq_lens None (Some (bs - 1)))))%M.

(** [get_cuda_graph_seq_len_fill_value(self)] *)
Definition get_cuda_graph_seq_len_fill_value : Z := 1.

(** The length and offset arguments [forward_extend] passes to
    [extend_attention_fwd], as the kernel sees them at the call. *)
Record ExtendArgs : Type := mkExtendArgs {
  ea_seq_lens : IntTensor;
  ea_extend_seq_lens : IntTensor;
  ea_extend_start_loc : IntTensor;
  ea_max_extend_len : option Z
}.

(** [forward_extend(self, q, k, v, layer, forward_batch)], up to the
    kernel's length and offset arguments. *)
Definition forward_extend (forward_batch : ForwardBatch) : M ExtendArgs :=
  (lens <-
     match local_seq_indices forward_batch with
     | Some idx =>
         seq_lens <- lift (getitem_index (seq_lens forward_batch) idx) ;;
         extend_seq_lens <-
           lift (getitem_index (extend_seq_lens forward_batch) idx) ;;
         extend_start_loc <- torch_zeros_like extend_seq_lens (dtype extend_seq_lens) ;;
         setitem_slice extend_start_loc (Some 1) None
           (torch_cumsum (getitem_slice extend_seq_lens None (Some (-1)))) ;;;
         extend_start_loc <- load_int extend_start_loc ;;
         ret (seq_lens, extend_seq_lens, extend_start_loc)
     | None =>
         ret (seq_lens forward_batch, extend_seq_lens forward_batch,
              extend_start_loc forward_batch)
     end ;;
   b <- get_self ;;
   match forward_metadata b with
   | None => raise TypeError
   | Some (start_loc, attn_logits, max_seq_len, max_extend_len) =>
       ret {| ea_seq_lens := lens.1.1;
              ea_extend_seq_lens := lens.1.2;
              ea_extend_start_loc := lens.2;
              ea_max_extend_len := max_extend_len |}
   end)%M.

(** The length and offset arguments [forward_decode] passes to
    [decode_attention_fwd]. *)
Record DecodeArgs : Type := mkDecodeArgs {
  da_start_loc : option loc;
  da_seq_lens : IntTensor;
  da_attn_logits : option loc;
  da_max_seq_len : option Z
}.

(** [forward_decode(self, q, k, v, layer, forward_batch)], up to the
    kernel's length and offset arguments. *)
Definition forward_decode (forward_batch : ForwardBatch) : M DecodeArgs :=
  (b <- get_self ;;
   match forward_metadata b with
   | None => raise TypeError
   | Some (start_loc, attn_logits, max_seq_len, max_extend_len) =>
       seq_lens <- lift (effective_seq_lens forward_batch) ;;
       ret {| da_start_loc := start_loc;
              da_seq_lens := seq_lens;
              da_attn_logits := attn_logits;
              da_max_seq_len := max_seq_len |}
   end)%M.

(** ** Observations on a world *)

Definition lookup_int (w : World) (r : loc) : option IntTensor :=
  match heap w !! r with
  | Some (IntObj t) => Some t
  | _ => None
  end.

Definition lookup_float (w : World) (r : loc) : option FloatTensor :=
  match heap w !! r with
  | Some (FloatObj t) => Some t
  | _ => None
  end.

(** The [start_loc] tensor the stored metadata points at. *)
Definition metadata_start_loc (w : World) : option IntTensor :=
  match forward_metadata (self w) with
  | Some (Some r, _, _, _) => lookup_int w r
  | _ => None
  end.

(** The accumulator the stored metadata points at. *)
Definition metadata_attn_logits (w : World) : option FloatTensor :=
  match forward_metadata (self w) with
  | Some (_, Some r, _, _) => lookup_float w r
  | _ => None
  end.

Definition metadata_max_seq_len (w : World) : option Z :=
  match forward_metadata (self w) with
  | Some (_, _, m, _) => m
  | None => None
  end.

Definition metadata_max_extend_len (w : World) : option Z :=
  match forward_metadata (self w) with
  | Some (_, _, _, m) => m
  | None => None
  end.

(** The capture-state offset table. *)
Definition cuda_graph_table (w : World) : option IntTensor :=
  match cuda_graph_start_loc (self w) with
  | Some r => lookup_int w r
  | None => None
  end.

(** The capture-state accumulator. *)
Definition cuda_graph_accumulator (w : World) : option FloatTensor :=
  match cuda_graph_attn_logits (self w) with
  | Some r => lookup_float w r
  | None => None
  end.

(** Sum of a list of integers, without any reduction. *)
Definition Zsum (xs : list Z) : Z := foldr Z.add 0 xs.

(** ** Notions the statements are written with *)

(** The offset table both the builder and the replay produce: position
    [i] holds the sum of the first [i] lengths, reduced to dtype [d]. *)
Definition offset_table (d : int_dtype) (L : list Z) (k : nat) : list Z :=
  map (fun i => wrap d (Zsum (take i L))) (seq 0 k).

Definition with_heap (w : World) (h : list HeapObj) : World :=
  {| heap := h; uninit := uninit w; self := self w |}.

Definition with_self (w : World) (b : TritonAttnBackend) : World :=
  {| heap := heap w; uninit := uninit w; self := b |}.

(** The maximum of a tensor, 0 for the empty one. *)
Definition max_or_zero (t : IntTensor) : Z :=
  match data t with
  | [] => 0
  | x :: r => fold_left Z.max r x
  end.

(** The accumulator [torch.empty] carves out at location [l]. *)
Definition fresh_accumulator (w : World) (l : loc) (r c : Z) (d : float_dtype)
  : FloatTensor :=
  {| fdtype := d; rows := r; cols := c;
     raw := fun i => uninit w l i mod 2 ^ float_bits d |}.

(** [max_extend_len] of the extend branch. *)
Definition extend_len (t p : IntTensor) : Res Z :=
  if 0 <? shape0 t
  then (d <- torch_sub t p ;; torch_max_item d)%res
  else Ok 0.


(** The capture state exists and was committed for [max_bs] requests: both
    attributes point at live buffers, and the offset table is an int32
    tensor of [max_bs] entries. *)
Definition capture_state (max_bs : Z) (w : World) : Prop :=
  exists r_sl r_al tbl acc,
    cuda_graph_start_loc (self w) = Some r_sl
    /\ cuda_graph_attn_logits (self w) = Some r_al
    /\ heap w !! r_sl = Some (IntObj tbl)
    /\ heap w !! r_al = Some (FloatObj acc)
    /\ dtype tbl = int32
    /\ shape0 tbl = max_bs.

(** Either the three decode fields are present and [max_extend_len] is
    [None], or the three decode fields are [None] and [max_extend_len] is
    present. *)
Definition mode_exclusive (md : ForwardMetadata) : Prop :=
  match md with
  | (start_loc, attn_logits, max_seq_len, max_extend_len) =>
      (is_Some start_loc /\ is_Some attn_logits /\ is_Some max_seq_len
       /\ max_extend_len = None)
      \/ (start_loc = None /\ attn_logits = None /\ max_seq_len = None
          /\ is_Some max_extend_len)
  end.


(** The offsets of the new tokens of each request: the exclusive running
    sums of the new-token lengths, in their dtype. *)
Definition offsets_tensor (t : IntTensor) : IntTensor :=
  {| dtype := dtype t;
     data := offset_table (dtype t) (data t) (length (data t)) |}.


Inductive Call : Type :=
  | CallInitForwardMetadata (forward_batch : ForwardBatch)
  | CallInitCudaGraphState (max_bs : Z)
  | CallCapture (bs : Z) (req_pool_indices seq_lens : IntTensor)
  | CallReplay (bs : Z) (req_pool_indices seq_lens : IntTensor)
  | CallForwardExtend (forward_batch : ForwardBatch)
  | CallForwardDecode (forward_batch : ForwardBatch).

(** The world a call leaves behind, whether it returns or raises. *)
Definition run_call (c : Call) (w : World) : World :=
  match c with
  | CallInitForwardMetadata fb => fst (init_forward_metadata fb w)
  | CallInitCudaGraphState max_bs => fst (init_cuda_graph_state max_bs w)
  | CallCapture bs req sl =>
      fst (init_forward_metadata_capture_cuda_graph bs req sl w)
  | CallReplay bs req sl =>
      fst (init_forward_metadata_replay_cuda_graph bs req sl w)
  | CallForwardExtend fb => fst (forward_extend fb w)
  | CallForwardDecode fb => fst (forward_decode fb w)
  end.

Definition run_calls (cs : list Call) (w : World) : World :=
  fold_left (fun w c => run_call c w) cs w.

Definition commits_capture_state (c : Call) : bool :=
  match c with
  | CallInitCudaGraphState _ => true
  | _ => false
  end.

(** What no call changes: the configuration read by [__init__], the
    accumulators on the heap, and the dtype and length of every integer
    tensor on the heap. *)
Record stable (w w' : World) : Prop := mkStable {
  st_num_head : num_head (self w') = num_head (self w);
  st_reduce_dtype : reduce_dtype (self w') = reduce_dtype (self w);
  st_max_seq_len :
    cuda_graph_max_seq_len (self w') = cuda_graph_max_seq_len (self w);
  st_float : forall r acc,
    heap w !! r = Some (FloatObj acc) -> heap w' !! r = Some (FloatObj acc);
  st_int : forall r t,
    heap w !! r = Some (IntObj t) ->
    exists t', heap w' !! r = Some (IntObj t')
               /\ dtype t' = dtype t /\ length (data t') = length (data t)
}.

(** What only [init_cuda_graph_state] changes. *)
Definition attrs_kept (w w' : World) : Prop :=
  cuda_graph_start_loc (self w') = cuda_graph_start_loc (self w)
  /\ cuda_graph_attn_logits (self w') = cuda_graph_attn_logits (self w).

(** Closes a frame goal once both sides are explicit worlds. *)
Ltac frame_solve :=
  cbn [fst with_self with_heap self heap set_forward_metadata
       cuda_graph_start_loc cuda_graph_attn_logits];
  first [ reflexivity | assumption | symmetry; assumption ].

(** ** Example configurations *)

Module Examples.

(** A backend as [__init__] leaves it: 32 heads over 4 tensor-parallel
    ranks, float16 reduction, context length 4096. *)
Definition runner : ModelRunner :=
  {| model_config := {| num_attention_heads := 32; context_len := 4096 |};
     tp_size := 4 |}.

Definition server_args : ServerArgs :=
  {| enable_mla_dp := false; triton_attention_reduce_in_fp32 := false |}.

Definition backend : TritonAttnBackend :=
  {| num_head := 8;
     reduce_dtype := float16;
     forward_metadata := None;
     cuda_graph_max_seq_len := 4096;
     cuda_graph_max_total_num_tokens := None;
     cuda_graph_start_loc := None;
     cuda_graph_attn_logits := None |}.

(** An empty heap; fresh memory at location [l] holds the bits of [l]. *)
Definition world : World :=
  {| heap := []; uninit := fun l _ => Z.of_nat l; self := backend |}.

Definition lens (xs : list Z) : IntTensor := {| dtype := int32; data := xs |}.

Definition decode_batch (xs : list Z) : ForwardBatch :=
  {| forward_mode := DECODE;
     seq_lens := lens xs;
     extend_prefix_lens := lens [];
     extend_seq_lens := lens [];
     extend_start_loc := lens [];
     local_seq_indices := None |}.

Definition extend_batch (xs ps : list Z) : ForwardBatch :=
  {| forward_mode := EXTEND;
     seq_lens := lens xs;
     extend_prefix_lens := lens ps;
     extend_seq_lens := lens (zip_with Z.sub xs ps);
     extend_start_loc :=
       lens (offset_table int32 (zip_with Z.sub xs ps) (length xs));
     local_seq_indices := None |}.

Definition with_indices (fb : ForwardBatch) (idx : list Z) : ForwardBatch :=
  {| forward_mode := forward_mode fb;
     seq_lens := seq_lens fb;
     extend_prefix_lens := extend_prefix_lens fb;
     extend_seq_lens := extend_seq_lens fb;
     extend_start_loc := extend_start_loc fb;
     local_seq_indices := Some idx |}.

(** The world after [init_cuda_graph_state(max_bs)]. *)
Definition capture_world (max_bs : Z) : World :=
  fst (init_cuda_graph_state max_bs world).

(** The capture state for two requests after a replay over [7, 7]. *)
Definition replayed_world : World :=
  fst (init_forward_metadata_replay_cuda_graph
         2 (lens [0; 1]) (lens [7; 7]) (capture_world 2)).

End Examples.

Module SubBatchExample.
Import Examples.

(** Four extend requests with lengths [3, 5, 2, 9] and cached prefixes
    [1, 2, 0, 4], restricted to requests 0 and 2, after the metadata was
    built. *)
Definition batch : ForwardBatch :=
  with_indices (extend_batch [3; 5; 2; 9] [1; 2; 0; 4]) [0; 2].

Definition built : World := fst (init_forward_metadata batch world).

End SubBatchExample.

Module CaptureExample.
Import Examples.

Definition before : list Call :=
  [CallInitForwardMetadata (decode_batch [4; 1; 7])].

Definition after : list Call :=
  [CallReplay 3 (lens [0; 1; 2]) (lens [4; 1; 7; 1]);
   CallInitForwardMetadata (extend_batch [10; 6] [8; 6]);
   CallForwardExtend (with_indices (extend_batch [10; 6] [8; 6]) [1])].

Definition committed : World :=
  fst (init_cuda_graph_state 4 (run_calls before world)).

End CaptureExample.

(** ** The forward calls with their collaborators *)

(** Modelled from the spec: the attention layer is an [nn.Module] declared
    elsewhere; the forward calls read its id, its query-head count on this
    rank and its two head dimensions. *)
Record Layer : Type := mkLayer {
  layer_id : Z;
  tp_q_head_num : Z;
  qk_head_dim : Z;
  v_head_dim : Z
}.

(** The tensors [q] and [o] hold floating-point data; the forward calls
    only allocate and reshape them, so they are known by their shapes. *)
Definition Shape : Type := list Z.

Definition numel (s : Shape) : Z := foldr Z.mul 1 s.

(** One pass over the sizes asked of [view] or [reshape]: the product of
    the given sizes and the position of the [-1], if any.  A second [-1]
    or another negative size raises. *)
Fixpoint infer_scan (sizes : list Z) (i : nat) (newsize : Z)
    (infer : option nat) : Res (Z * option nat) :=
  match sizes with
  | [] => Ok (newsize, infer)
  | d :: rest =>
      if d =? -1 then
        match infer with
        | Some _ => Raise RuntimeError
        | None => infer_scan rest (S i) newsize (Some i)
        end
      else if 0 <=? d then infer_scan rest (S i) (newsize * d) infer
      else Raise RuntimeError
  end.

(** The shape that [view] or [reshape] with these sizes gives to [n]
    elements:
    the [-1] is replaced by the quotient when the given sizes divide [n];
    no element count fits a product of 0 with a [-1]. *)
Definition infer_size (sizes : list Z) (n : Z) : Res Shape :=
  (r <- infer_scan sizes 0 1 None ;;
   match r.2 with
   | Some i =>
       if (n =? r.1) || ((0 <? r.1) && (n mod r.1 =? 0)) then
         if r.1 =? 0 then Raise RuntimeError
         else Ok (<[i := n / r.1]> sizes)
       else Raise RuntimeError
   | None => if n =? r.1 then Ok sizes else Raise RuntimeError
   end)%res.

(** The output tensor: [q.new_empty((q.shape[0], tp_q_head_num *
    v_head_dim))] when the two head dimensions differ, [torch.empty_like(q)]
    otherwise. *)
Definition new_output (q : Shape) (layer : Layer) : Res Shape :=
  if negb (qk_head_dim layer =? v_head_dim layer) then
    match q with
    | [] => Raise IndexError
    | d0 :: _ =>
        if tp_q_head_num layer * v_head_dim layer <? 0
        then Raise RuntimeError
        else Ok [d0; tp_q_head_num layer * v_head_dim layer]
    end
  else Ok q.

(** The calls a forward method makes on its collaborators, in the order
    it makes them. *)
Inductive Event : Type :=
  | SetKvBuffer (layer_id : Z)
  | GetKeyBuffer (layer_id : Z)
  | GetValueBuffer (layer_id : Z)
  | ExtendAttentionFwd (q o : Shape) (args : ExtendArgs)
  | DecodeAttentionFwd (q o : Shape) (args : DecodeArgs).

(** A method body that also records its collaborator calls. *)
Definition T (A : Type) : Type :=
  World -> list Event -> World * list Event * Res A.

Definition t_ret {A} (a : A) : T A := fun w tr => (w, tr, Ok a).

Definition t_bind {A B} (m : T A) (k : A -> T B) : T B :=
  fun w tr =>
    match m w tr with
    | (w', tr', Ok a) => k a w' tr'
    | (w', tr', Raise e) => (w', tr', Raise e)
    end.

Definition emit (e : Event) : T unit := fun w tr => (w, tr ++ [e], Ok tt).

Definition of_res {A} (r : Res A) : T A := fun w tr => (w, tr, r).

Definition run_m {A} (m : M A) : T A :=
  fun w tr => let '(w', r) := m w in (w', tr, r).

Declare Scope t_scope.
Delimit Scope t_scope with T.
Notation "x <- m ;; k" := (t_bind m (fun x => k))
  (at level 100, m at next level, right associativity) : t_scope.
Notation "m ;;; k" := (t_bind m (fun _ => k))
  (at level 100, right associativity) : t_scope.

(** [start_loc, attn_logits, max_seq_len, max_extend_len =
    self.forward_metadata] *)
Definition unpack_forward_metadata : M ForwardMetadata :=
  (b <- get_self ;;
   match forward_metadata b with
   | None => raise TypeError
   | Some md => ret md
   end)%M.

(** [forward_extend] with the output tensor and the collaborator calls.
    Whether a view exists depends on the strides of the caller's [q]:
    [q_view] is the outcome of [q.view(-1, tp_q_head_num, qk_head_dim)]
    and [like_view] the outcome of [view(-1, tp_q_head_num, v_head_dim)]
    on [torch.empty_like(q)], which keeps the layout of a dense [q]; for a
    contiguous [q] both are [infer_size] of these sizes.  The output of
    [new_empty] is contiguous. *)
Definition forward_extend_traced (q : Shape) (q_view like_view : Res Shape)
    (layer : Layer) (forward_batch : ForwardBatch) : T Shape :=
  (o <- of_res (new_output q layer) ;;
   emit (SetKvBuffer (layer_id layer)) ;;;
   args <- run_m (forward_extend forward_batch) ;;
   q3 <- of_res q_view ;;
   o3 <- of_res (if negb (qk_head_dim layer =? v_head_dim layer)
                 then infer_size [-1; tp_q_head_num layer; v_head_dim layer]
                        (numel o)
                 else like_view) ;;
   emit (GetKeyBuffer (layer_id layer)) ;;;
   emit (GetValueBuffer (layer_id layer)) ;;;
   emit (ExtendAttentionFwd q3 o3 args) ;;;
   t_ret o)%T.

(** [forward_decode] with the reshaped query, the output tensor and the
    collaborator calls.  The reshaped query has two dimensions and the
    output is allocated from it, so that both views, which only split the
    last dimension, exist whenever the sizes fit. *)
Definition forward_decode_traced (q : Shape) (layer : Layer)
    (forward_batch : ForwardBatch) : T Shape :=
  (q <- of_res (infer_size [-1; tp_q_head_num layer * qk_head_dim layer]
                  (numel q)) ;;
   o <- of_res (new_output q layer) ;;
   md <- run_m unpack_forward_metadata ;;
   emit (SetKvBuffer (layer_id layer)) ;;;
   seq_lens <- of_res (effective_seq_lens forward_batch) ;;
   q3 <- of_res (infer_size [-1; tp_q_head_num layer; qk_head_dim layer]
                   (numel q)) ;;
   emit (GetKeyBuffer (layer_id layer)) ;;;
   emit (GetValueBuffer (layer_id layer)) ;;;
   o3 <- of_res (infer_size [-1; tp_q_head_num layer; v_head_dim layer]
                   (numel o)) ;;
   emit (DecodeAttentionFwd q3 o3
           {| da_start_loc := md.1.1.1;
              da_seq_lens := seq_lens;
              da_attn_logits := md.1.1.2;
              da_max_seq_len := md.1.2 |}) ;;;
   t_ret o)%T.

Module LayerExamples.

(** Eight heads of dimension 128 for queries, keys and values. *)
Definition plain : Layer :=
  {| layer_id := 3; tp_q_head_num := 8; qk_head_dim := 128; v_head_dim := 128 |}.

(** Eight heads with query/key dimension 192 and value dimension 128. *)
Definition mla : Layer :=
  {| layer_id := 3; tp_q_head_num := 8; qk_head_dim := 192; v_head_dim := 128 |}.


End LayerExamples.

(** * Properties *)

(** ** Two's-complement reduction *)

Section Wrap.

Lemma wrap_in_range d z : in_range d (wrap d z).
Proof.
  unfold in_range, min_value, max_value, wrap.
  destruct d; cbn [bits];
    match goal with
    | |- context [?a mod ?m] =>
        pose proof (Z.mod_pos_bound a m ltac:(reflexivity))
    end; lia.
Qed.

Lemma wrap_id d z : in_range d z -> wrap d z = z.
Proof.
  unfold in_range, min_value, max_value, wrap.
  destruct d; cbn [bits]; intros H; rewrite Z.mod_small; lia.
Qed.

Lemma wrap_0 d : wrap d 0 = 0.
Proof. destruct d; reflexivity. Qed.

(** Reducing to int64 first does not change a later reduction. *)
Lemma wrap_wrap64 d z : wrap d (wrap int64 z) = wrap d z.
Proof.
  unfold wrap. destruct d; cbn [bits].
  - f_equal.
    pose proof (Z.div_mod (z + 2 ^ (64 - 1)) (2 ^ 64) ltac:(lia)) as E.
    set (q := (z + 2 ^ (64 - 1)) / 2 ^ 64) in *.
    set (r := (z + 2 ^ (64 - 1)) mod 2 ^ 64) in *.
    replace (r - 2 ^ (64 - 1) + 2 ^ (32 - 1))
      with (z + 2 ^ (32 - 1) + (- q * 2 ^ 32) * 2 ^ 32) by lia.
    apply Z_mod_plus_full.
  - f_equal.
    replace ((z + 2 ^ (64 - 1)) mod 2 ^ 64 - 2 ^ (64 - 1) + 2 ^ (64 - 1))
      with ((z + 2 ^ (64 - 1)) mod 2 ^ 64) by lia.
    apply Z.mod_mod. lia.
Qed.

Lemma wrap64_add_l a b : wrap int64 (wrap int64 a + b) = wrap int64 (a + b).
Proof.
  unfold wrap. cbn [bits]. f_equal.
  pose proof (Z.div_mod (a + 2 ^ (64 - 1)) (2 ^ 64) ltac:(lia)) as E.
  set (q := (a + 2 ^ (64 - 1)) / 2 ^ 64) in *.
  set (r := (a + 2 ^ (64 - 1)) mod 2 ^ 64) in *.
  replace (r - 2 ^ (64 - 1) + b + 2 ^ (64 - 1))
    with (a + b + 2 ^ (64 - 1) + (- q) * 2 ^ 64) by lia.
  apply Z_mod_plus_full.
Qed.

End Wrap.

(** ** Sums and running sums *)

Section Sums.

Lemma Zsum_app xs ys : Zsum (xs ++ ys) = Zsum xs + Zsum ys.
Proof.
  unfold Zsum. induction xs as [|x xs IH]; cbn; [reflexivity | rewrite IH; lia].
Qed.

Lemma Zsum_take_S (xs : list Z) i x :
  xs !! i = Some x -> Zsum (take (S i) xs) = Zsum (take i xs) + x.
Proof.
  intros H. rewrite (take_S_r _ _ _ H), Zsum_app. unfold Zsum. cbn. lia.
Qed.



Lemma length_cumsum_from acc xs : length (cumsum_from acc xs) = length xs.
Proof.
  revert acc. induction xs as [|x xs IH]; intros acc; cbn; [|rewrite IH]; reflexivity.
Qed.

(** Element [i] of the running sums is the int64 reduction of the sum of
    the first [i + 1] inputs. *)
Lemma cumsum_from_lookup xs : forall acc i,
  (i < length xs)%nat ->
  cumsum_from acc xs !! i = Some (wrap int64 (acc + Zsum (take (S i) xs))).
Proof.
  induction xs as [|x xs IH]; intros acc i Hi; cbn in Hi; [lia|].
  destruct i as [|i].
  - change (cumsum_from acc (x :: xs) !! 0%nat)
      with (Some (wrap int64 (acc + x))).
    change (take 1 (x :: xs)) with (x :: take 0 xs).
    rewrite take_0. unfold Zsum. cbn [foldr]. do 2 f_equal. lia.
  - change (cumsum_from acc (x :: xs) !! S i)
      with (cumsum_from (wrap int64 (acc + x)) xs !! i).
    rewrite IH by lia. rewrite wrap64_add_l.
    change (take (S (S i)) (x :: xs)) with (x :: take (S i) xs).
    do 2 f_equal. unfold Zsum. cbn [foldr]. lia.
Qed.



Lemma fold_max_ge r : forall x, x <= fold_left Z.max r x.
Proof.
  induction r as [|y r IH]; intros x; cbn; [lia|].
  specialize (IH (Z.max x y)). lia.
Qed.

Lemma fold_max_upper r : forall x y, y ∈ r -> y <= fold_left Z.max r x.
Proof.
  induction r as [|z r IH]; intros x y Hy; cbn.
  - inversion Hy.
  - apply elem_of_cons in Hy as [->|Hy].
    + pose proof (fold_max_ge r (Z.max x z)). lia.
    + apply IH; assumption.
Qed.

Lemma fold_max_elem r : forall x, fold_left Z.max r x ∈ x :: r.
Proof.
  induction r as [|z r IH]; intros x; cbn.
  - apply list_elem_of_here.
  - specialize (IH (Z.max x z)).
    apply elem_of_cons in IH as [E|IH].
    + rewrite E. destruct (Z.max_spec x z) as [[_ ->]|[_ ->]].
      * apply list_elem_of_further, list_elem_of_here.
      * apply list_elem_of_here.
    + do 2 apply list_elem_of_further. assumption.
Qed.

(** [torch.max] returns an element that bounds every element. *)
Lemma torch_max_item_spec t m :
  torch_max_item t = Ok m ->
  m ∈ data t /\ forall y, y ∈ data t -> y <= m.
Proof.
  unfold torch_max_item. destruct (data t) as [|x r]; [discriminate|].
  intros [= <-]. split; [apply fold_max_elem|].
  intros y Hy. apply elem_of_cons in Hy as [->|Hy].
  - apply fold_max_ge.
  - apply fold_max_upper; assumption.
Qed.

End Sums.

(** ** Slices and slice assignment *)

Section Slices.

Lemma length_offset_table d L k : length (offset_table d L k) = k.
Proof. unfold offset_table. rewrite length_map, length_seq. reflexivity. Qed.

Lemma offset_table_lookup d L k i :
  (i < k)%nat -> offset_table d L k !! i = Some (wrap d (Zsum (take i L))).
Proof.
  intros Hi. unfold offset_table.
  rewrite list_lookup_fmap, lookup_seq_lt by assumption. reflexivity.
Qed.

(** [xs[:k]] for a non-negative [k] is the first [k] elements. *)
Lemma slice_list_prefix {A} (xs : list A) k :
  0 <= k -> slice_list xs None (Some k) = take (Z.to_nat k) xs.
Proof.
  intros Hk. unfold slice_list, slice_range, slice_bound.
  destruct (Z.ltb_spec k 0) as [?|_]; [lia|].
  change (Z.to_nat 0) with 0%nat. rewrite drop_0, Z.sub_0_r.
  destruct (Z.le_ge_cases k (Z.of_nat (length xs))).
  - rewrite Z.min_l by assumption. reflexivity.
  - rewrite Z.min_r by assumption. rewrite Nat2Z.id.
    rewrite !take_ge by lia. reflexivity.
Qed.

(** [xs[:-1]] drops the last element of a non-empty sequence. *)
Lemma slice_list_but_last {A} (xs : list A) :
  xs <> [] ->
  slice_list xs None (Some (-1))
  = slice_list xs None (Some (Z.of_nat (length xs) - 1)).
Proof.
  intros Hne. assert (0 < length xs)%nat by (destruct xs; cbn; [congruence|lia]).
  unfold slice_list, slice_range, slice_bound.
  change (-1 <? 0) with true. cbv iota.
  destruct (Z.ltb_spec (Z.of_nat (length xs) - 1) 0) as [?|_]; [lia|].
  rewrite Z.max_l, Z.min_l by lia.
  replace (-1 + Z.of_nat (length xs)) with (Z.of_nat (length xs) - 1) by lia.
  reflexivity.
Qed.

Lemma slice_range_1_stop n bs :
  1 <= bs <= Z.of_nat n ->
  slice_range n (Some 1) (Some bs) = (1%nat, Z.to_nat (bs - 1)).
Proof.
  intros H. unfold slice_range, slice_bound.
  change (1 <? 0) with false. cbv iota.
  destruct (Z.ltb_spec bs 0) as [?|_]; [lia|].
  rewrite !Z.min_l by lia. reflexivity.
Qed.

Lemma slice_range_1_end n :
  (1 <= n)%nat ->
  slice_range n (Some 1) None = slice_range n (Some 1) (Some (Z.of_nat n)).
Proof.
  intros H. unfold slice_range, slice_bound.
  destruct (Z.ltb_spec (Z.of_nat n) 0) as [?|_]; [lia|].
  rewrite (Z.min_l (Z.of_nat n)) by lia. reflexivity.
Qed.

(** A slice never reaches outside the sequence. *)
Lemma slice_range_bounds n start stop s k :
  slice_range n start stop = (s, k) -> (s + k <= n)%nat.
Proof.
  unfold slice_range, slice_bound. intros [= <- <-].
  destruct start as [a|], stop as [b|];
    repeat match goal with
           | |- context [?x <? 0] => destruct (Z.ltb_spec x 0)
           end; lia.
Qed.

Lemma broadcast_to_length n xs v :
  broadcast_to n xs = Ok v -> length v = n.
Proof.
  unfold broadcast_to. destruct (Nat.eqb_spec (length xs) n) as [E|E].
  - intros [= <-]. exact E.
  - destruct xs as [|x [|y r]]; try discriminate.
    intros [= <-]. apply length_replicate.
Qed.

(** Slice assignment keeps the length of the destination. *)
Lemma assign_slice_length d dst start stop src v :
  assign_slice d dst start stop src = Ok v -> length v = length dst.
Proof.
  unfold assign_slice.
  destruct (slice_range (length dst) start stop) as [s k] eqn:E.
  apply slice_range_bounds in E.
  destruct (broadcast_to k (data src)) as [vals|e] eqn:B; cbn; [|discriminate].
  apply broadcast_to_length in B. intros [= <-].
  rewrite !length_app, length_map, length_take, length_drop. lia.
Qed.

(** The running sums of the first [k] lengths, converted to [d], are the
    entries [1 .. k] of the offset table. *)
Lemma cumsum_offsets d L k :
  (k <= length L)%nat ->
  map (wrap d) (cumsum_from 0 (take k L))
  = map (fun i => wrap d (Zsum (take i L))) (seq 1 k).
Proof.
  intros Hk. apply list_eq. intros i.
  rewrite !list_lookup_fmap.
  destruct (Nat.lt_ge_cases i k) as [Hi|Hi].
  - rewrite cumsum_from_lookup by (rewrite length_take; lia).
    rewrite lookup_seq_lt by assumption. cbn [fmap option_fmap option_map].
    rewrite wrap_wrap64, take_take.
    replace (S i `min` k)%nat with (1 + i)%nat by lia.
    rewrite Z.add_0_l. reflexivity.
  - rewrite !lookup_ge_None_2;
      [reflexivity | rewrite length_seq; lia
      | rewrite length_cumsum_from, length_take; lia].
Qed.

(** [table[1:bs] = cumsum(L[:bs - 1])] on a zeroed table of [n] entries,
    for a batch size within the table and enough lengths. *)
Lemma assign_cumsum_ok d dt n bs L :
  1 <= bs <= Z.of_nat n ->
  bs - 1 <= Z.of_nat (length L) ->
  assign_slice d (replicate n 0) (Some 1) (Some bs)
    (torch_cumsum (getitem_slice {| dtype := dt; data := L |}
                     None (Some (bs - 1))))
  = Ok (offset_table d L (Z.to_nat bs) ++ replicate (n - Z.to_nat bs) 0).
Proof.
  intros Hbs HL. unfold assign_slice.
  rewrite length_replicate, slice_range_1_stop by assumption.
  cbn [torch_cumsum getitem_slice data dtype].
  rewrite slice_list_prefix by lia.
  unfold broadcast_to.
  rewrite length_cumsum_from, length_take.
  replace (Z.to_nat (bs - 1) `min` length L)%nat with (Z.to_nat (bs - 1)) by lia.
  rewrite Nat.eqb_refl. cbn [res_bind]. f_equal.
  rewrite cumsum_offsets by lia.
  rewrite take_replicate, drop_replicate.
  replace (1 `min` n)%nat with 1%nat by lia.
  replace (n - (1 + Z.to_nat (bs - 1)))%nat with (n - Z.to_nat bs)%nat by lia.
  rewrite app_assoc. f_equal.
  unfold offset_table.
  replace (Z.to_nat bs) with (S (Z.to_nat (bs - 1))) by lia.
  cbn [seq map replicate app]. rewrite take_0. unfold Zsum at 1.
  cbn [foldr]. rewrite wrap_0. reflexivity.
Qed.

(** The same assignment with more than one source element and a slice
    that is too short raises. *)
Lemma assign_cumsum_raise d dt n bs L :
  Z.of_nat n < bs -> 3 <= bs ->
  bs - 1 <= Z.of_nat (length L) ->
  assign_slice d (replicate n 0) (Some 1) (Some bs)
    (torch_cumsum (getitem_slice {| dtype := dt; data := L |}
                     None (Some (bs - 1))))
  = Raise RuntimeError.
Proof.
  intros Hbs H3 HL. unfold assign_slice.
  destruct (slice_range (length (replicate n 0)) (Some 1) (Some bs))
    as [s k] eqn:E.
  rewrite length_replicate in E. unfold slice_range, slice_bound in E.
  change (1 <? 0) with false in E. cbv iota in E.
  destruct (Z.ltb_spec bs 0) as [?|_]; [lia|].
  injection E as <- <-.
  cbn [torch_cumsum getitem_slice data dtype].
  rewrite slice_list_prefix by lia.
  unfold broadcast_to.
  assert (Hlen : length (cumsum_from 0 (take (Z.to_nat (bs - 1)) L))
                 = Z.to_nat (bs - 1))
    by (rewrite length_cumsum_from, length_take; lia).
  match goal with
  | |- context [(?a =? ?b)%nat] =>
      destruct (Nat.eqb_spec a b) as [Ek|_]; [lia|]
  end.
  destruct (cumsum_from 0 (take (Z.to_nat (bs - 1)) L)) as [|a [|b r]];
    cbn in Hlen; [lia | lia | reflexivity].
Qed.

(** [start_loc[1:] = cumsum(seq_lens[:-1])] on the zeroed [start_loc]. *)
Lemma assign_cumsum_decode d t :
  assign_slice d (replicate (length (data t)) 0) (Some 1) None
    (torch_cumsum (getitem_slice t None (Some (-1))))
  = Ok (offset_table d (data t) (length (data t))).
Proof.
  destruct t as [dt L]. cbn [data].
  destruct L as [|x L'] eqn:EL; [reflexivity|]. rewrite <- EL.
  assert (Hne : L <> []) by (rewrite EL; discriminate).
  assert (Hlen : (1 <= length L)%nat) by (rewrite EL; cbn; lia).
  unfold assign_slice. rewrite length_replicate.
  rewrite slice_range_1_end by assumption.
  unfold getitem_slice. cbn [data dtype].
  rewrite slice_list_but_last by assumption.
  pose proof (assign_cumsum_ok d dt (length L) (Z.of_nat (length L)) L
                ltac:(lia) ltac:(lia)) as H.
  unfold assign_slice, getitem_slice in H. cbn [data dtype] in H.
  rewrite length_replicate in H. rewrite H.
  rewrite Nat2Z.id, Nat.sub_diag. cbn [replicate]. rewrite app_nil_r.
  reflexivity.
Qed.

End Slices.

(** ** What each method does to the world *)

Section Run.

Lemma guarded_max t :
  (if 0 <? shape0 t then torch_max_item t else Ok 0) = Ok (max_or_zero t).
Proof.
  unfold shape0, torch_max_item, max_or_zero.
  destruct (data t); reflexivity.
Qed.

Lemma zero_run w r t :
  heap w !! r = Some (IntObj t) ->
  zero_ r w
  = (with_heap w (<[r := IntObj {| dtype := dtype t;
                                   data := replicate (length (data t)) 0 |}]>
                    (heap w)), Ok tt).
Proof.
  intros H. unfold zero_, bind, load_int, store_int. rewrite H. reflexivity.
Qed.

Lemma setitem_slice_run w r t start stop src :
  heap w !! r = Some (IntObj t) ->
  setitem_slice r start stop src w
  = match assign_slice (dtype t) (data t) start stop src with
    | Ok vals =>
        (with_heap w (<[r := IntObj {| dtype := dtype t; data := vals |}]>
                        (heap w)), Ok tt)
    | Raise e => (w, Raise e)
    end.
Proof.
  intros H. unfold setitem_slice, bind, load_int, lift, store_int.
  rewrite H. destruct (assign_slice _ _ _ _ _); reflexivity.
Qed.

(** The decode branch: the offsets are written into a fresh int32
    tensor, the accumulator is carved out next to it, and the tuple is
    stored; a negative head count or token total raises at
    [torch.empty], after [start_loc] was built. *)
Lemma init_forward_metadata_decode w fb t :
  forward_mode fb = DECODE ->
  effective_seq_lens fb = Ok t ->
  let n := length (heap w) in
  let sl := {| dtype := int32;
               data := offset_table int32 (data t) (length (data t)) |} in
  let h1 := heap w ++ [IntObj sl] in
  init_forward_metadata fb w
  = if (num_head (self w) <? 0) || (torch_sum_item t <? 0)
    then (with_heap w h1, Raise RuntimeError)
    else
      ({| heap := h1 ++ [FloatObj (fresh_accumulator w (S n)
                                     (num_head (self w)) (torch_sum_item t)
                                     (reduce_dtype (self w)))];
          uninit := uninit w;
          self := set_forward_metadata
                    (Some n, Some (S n), Some (max_or_zero t), None)
                    (self w) |}, Ok tt).
Proof.
  intros Hm Ht n sl h1.
  unfold init_forward_metadata. unfold bind at 1. unfold lift at 1.
  rewrite Ht, Hm. cbn [is_decode].
  unfold bind at 1. unfold torch_zeros_like, alloc. cbn [heap self uninit].
  unfold bind at 1.
  erewrite setitem_slice_run
    by (cbn [heap]; apply list_lookup_middle; reflexivity).
  cbn [dtype data]. rewrite assign_cumsum_decode.
  unfold with_heap. cbn [heap uninit self].
  replace (<[length (heap w):=IntObj
               {| dtype := int32;
                  data := offset_table int32 (data t) (length (data t)) |}]>
             (heap w ++ [IntObj {| dtype := int32;
                                   data := replicate (length (data t)) 0 |}]))
    with h1
    by (subst h1 sl; rewrite insert_app_r_alt, Nat.sub_diag by lia; reflexivity).
  unfold bind at 1. unfold get_self at 1. cbn [self].
  unfold bind at 1. unfold torch_empty.
  destruct ((num_head (self w) <? 0) || (torch_sum_item t <? 0)); [reflexivity|].
  unfold alloc. cbn [heap uninit self].
  unfold bind, lift, set_self. rewrite guarded_max. cbn [heap uninit self].
  subst h1 n. rewrite length_app. cbn [length].
  replace (length (heap w) + 1)%nat with (S (length (heap w))) by lia.
  reflexivity.
Qed.

(** The extend branch allocates nothing. *)
Lemma init_forward_metadata_extend w fb t :
  forward_mode fb = EXTEND ->
  effective_seq_lens fb = Ok t ->
  init_forward_metadata fb w
  = match effective_prefix_lens fb with
    | Raise e => (w, Raise e)
    | Ok p =>
        match extend_len t p with
        | Raise e => (w, Raise e)
        | Ok m =>
            (with_self w (set_forward_metadata (None, None, None, Some m)
                            (self w)), Ok tt)
        end
    end.
Proof.
  intros Hm Ht.
  unfold init_forward_metadata, bind, lift. rewrite Ht, Hm. cbn [is_decode].
  destruct (effective_prefix_lens fb) as [p|e]; [|reflexivity].
  fold (extend_len t p). destruct (extend_len t p); reflexivity.
Qed.

Lemma init_forward_metadata_raise w fb e :
  effective_seq_lens fb = Raise e ->
  init_forward_metadata fb w = (w, Raise e).
Proof.
  intros H. unfold init_forward_metadata, bind, lift. rewrite H. reflexivity.
Qed.

(** [init_cuda_graph_state] step by step. *)
Lemma init_cuda_graph_state_run w max_bs :
  let n := length (heap w) in
  let total := max_bs * cuda_graph_max_seq_len (self w) in
  let b1 := set_cuda_graph_max_total_num_tokens total (self w) in
  let tbl := {| dtype := int32; data := replicate (Z.to_nat max_bs) 0 |} in
  let b2 := set_cuda_graph_start_loc n b1 in
  init_cuda_graph_state max_bs w
  = if max_bs <? 0 then (with_self w b1, Raise RuntimeError)
    else if (num_head (self w) <? 0) || (total <? 0)
    then ({| heap := heap w ++ [IntObj tbl]; uninit := uninit w; self := b2 |},
          Raise RuntimeError)
    else
      ({| heap := (heap w ++ [IntObj tbl])
                  ++ [FloatObj (fresh_accumulator w (S n) (num_head (self w))
                                  total (reduce_dtype (self w)))];
          uninit := uninit w;
          self := set_cuda_graph_attn_logits (S n) b2 |}, Ok tt).
Proof.
  intros n total b1 tbl b2.
  unfold init_cuda_graph_state.
  unfold bind at 1. unfold get_self at 1.
  unfold bind at 1. unfold set_self at 1.
  unfold bind at 1. unfold torch_zeros.
  destruct (max_bs <? 0); [reflexivity|].
  unfold alloc at 1. cbn [heap uninit self].
  unfold bind at 1. unfold set_self at 1. cbn [heap uninit self].
  unfold bind at 1. unfold get_attr. cbn [self heap uninit].
  cbn [set_cuda_graph_start_loc set_cuda_graph_max_total_num_tokens
       cuda_graph_max_total_num_tokens].
  unfold bind at 1. unfold torch_empty. fold total.
  destruct ((num_head (self w) <? 0) || (total <? 0)); [reflexivity|].
  unfold alloc, set_self. cbn [heap uninit self].
  subst n. rewrite length_app. cbn [length].
  replace (length (heap w) + 1)%nat with (S (length (heap w))) by lia.
  reflexivity.
Qed.

Lemma capture_run w bs req seq_lens :
  init_forward_metadata_capture_cuda_graph bs req seq_lens w
  = match cuda_graph_start_loc (self w), cuda_graph_attn_logits (self w) with
    | Some r_sl, Some r_al =>
        (with_self w (set_forward_metadata
                        (Some r_sl, Some r_al,
                         Some (cuda_graph_max_seq_len (self w)), None)
                        (self w)), Ok tt)
    | _, _ => (w, Raise AttributeError)
    end.
Proof.
  unfold init_forward_metadata_capture_cuda_graph, bind, get_attr, get_self,
    set_self.
  destruct (cuda_graph_start_loc (self w)); [|reflexivity].
  destruct (cuda_graph_attn_logits (self w)); reflexivity.
Qed.

(** The replay zeroes the table and then assigns the slice; an
    exception of the assignment leaves the zeroed table behind. *)
Lemma replay_run w bs req seq_lens r tbl :
  cuda_graph_start_loc (self w) = Some r ->
  heap w !! r = Some (IntObj tbl) ->
  let zeros := replicate (length (data tbl)) 0 in
  init_forward_metadata_replay_cuda_graph bs req seq_lens w
  = match assign_slice (dtype tbl) zeros (Some 1) (Some bs)
            (torch_cumsum (getitem_slice seq_lens None (Some (bs - 1)))) with
    | Ok vals =>
        (with_heap w (<[r := IntObj {| dtype := dtype tbl; data := vals |}]>
                        (heap w)), Ok tt)
    | Raise e =>
        (with_heap w (<[r := IntObj {| dtype := dtype tbl; data := zeros |}]>
                        (heap w)), Raise e)
    end.
Proof.
  intros Hr Ht zeros.
  assert (Hlt : (r < length (heap w))%nat) by (eapply lookup_lt_Some; eassumption).
  unfold init_forward_metadata_replay_cuda_graph.
  unfold bind at 1. unfold get_attr at 1. rewrite Hr.
  unfold bind at 1. rewrite (zero_run _ _ _ Ht).
  unfold bind at 1. unfold get_attr. cbn [with_heap self]. rewrite Hr.
  erewrite setitem_slice_run
    by (cbn [with_heap heap]; apply list_lookup_insert_eq; assumption).
  cbn [dtype data]. fold zeros.
  destruct (assign_slice _ _ _ _ _); [|reflexivity].
  unfold with_heap. cbn [heap uninit self].
  rewrite list_insert_insert_eq. reflexivity.
Qed.

Lemma replay_no_state w bs req seq_lens :
  cuda_graph_start_loc (self w) = None ->
  init_forward_metadata_replay_cuda_graph bs req seq_lens w
  = (w, Raise AttributeError).
Proof.
  intros H. unfold init_forward_metadata_replay_cuda_graph, bind, get_attr.
  rewrite H. reflexivity.
Qed.

End Run.

(** ** The offsets of the decode branch *)

Section Offsets.

Lemma metadata_start_loc_decode h (sl : IntTensor) o u b n m :
  n = length h ->
  metadata_start_loc
    {| heap := (h ++ [IntObj sl]) ++ [o]; uninit := u;
       self := set_forward_metadata (Some n, Some (S n), m, None) b |}
  = Some sl.
Proof.
  intros ->. unfold metadata_start_loc, lookup_int.
  cbn [self set_forward_metadata forward_metadata heap].
  rewrite <- app_assoc. cbn [app].
  rewrite list_lookup_middle by reflexivity. reflexivity.
Qed.

Lemma metadata_attn_logits_decode h (acc : FloatTensor) o u b n m :
  n = length h ->
  metadata_attn_logits
    {| heap := (h ++ [o]) ++ [FloatObj acc]; uninit := u;
       self := set_forward_metadata (Some n, Some (S n), m, None) b |}
  = Some acc.
Proof.
  intros ->. unfold metadata_attn_logits, lookup_float.
  cbn [self set_forward_metadata forward_metadata heap].
  rewrite list_lookup_middle by (rewrite length_app; cbn; lia). reflexivity.
Qed.



End Offsets.




(** ** The capture state and its replay *)

Section Replay.


(** A successful [init_cuda_graph_state] commits the capture state: a
    zeroed int32 table of [max_bs] entries and an accumulator of
    [num_head] rows and [max_bs * cuda_graph_max_seq_len] columns, at two
    locations that did not exist before. *)
Lemma init_cuda_graph_state_commits w max_bs w' :
  init_cuda_graph_state max_bs w = (w', Ok tt) ->
  capture_state max_bs w'
  /\ cuda_graph_start_loc (self w') = Some (length (heap w))
  /\ cuda_graph_attn_logits (self w') = Some (S (length (heap w)))
  /\ cuda_graph_table w'
     = Some {| dtype := int32; data := replicate (Z.to_nat max_bs) 0 |}
  /\ cuda_graph_accumulator w'
     = Some (fresh_accumulator w (S (length (heap w))) (num_head (self w))
               (max_bs * cuda_graph_max_seq_len (self w))
               (reduce_dtype (self w)))
  /\ cuda_graph_max_seq_len (self w') = cuda_graph_max_seq_len (self w)
  /\ take (length (heap w)) (heap w') = heap w.
Proof.
  rewrite init_cuda_graph_state_run.
  destruct (Z.ltb_spec max_bs 0) as [?|Hbs]; [discriminate|].
  destruct (_ || _); [discriminate|].
  intros [= <-].
  assert (H1 : ((heap w ++ [IntObj {| dtype := int32;
                                      data := replicate (Z.to_nat max_bs) 0 |}])
                ++ [FloatObj (fresh_accumulator w (S (length (heap w)))
                                (num_head (self w))
                                (max_bs * cuda_graph_max_seq_len (self w))
                                (reduce_dtype (self w)))]) !! length (heap w)
               = Some (IntObj {| dtype := int32;
                                 data := replicate (Z.to_nat max_bs) 0 |})).
  { rewrite <- app_assoc. cbn [app]. apply list_lookup_middle. reflexivity. }
  assert (H2 : ((heap w ++ [IntObj {| dtype := int32;
                                      data := replicate (Z.to_nat max_bs) 0 |}])
                ++ [FloatObj (fresh_accumulator w (S (length (heap w)))
                                (num_head (self w))
                                (max_bs * cuda_graph_max_seq_len (self w))
                                (reduce_dtype (self w)))]) !! S (length (heap w))
               = Some (FloatObj (fresh_accumulator w (S (length (heap w)))
                                (num_head (self w))
                                (max_bs * cuda_graph_max_seq_len (self w))
                                (reduce_dtype (self w))))).
  { apply list_lookup_middle. rewrite length_app. cbn. lia. }
  unfold capture_state, cuda_graph_table, cuda_graph_accumulator,
    lookup_int, lookup_float.
  cbn [self heap set_cuda_graph_attn_logits set_cuda_graph_start_loc
       set_cuda_graph_max_total_num_tokens cuda_graph_start_loc
       cuda_graph_attn_logits cuda_graph_max_seq_len].
  unfold loc in *. rewrite H1, H2.
  split.
  { eexists _, _, _, _.
    split; [reflexivity|]. split; [reflexivity|].
    split; [exact H1|]. split; [exact H2|]. split; [reflexivity|].
    unfold shape0. cbn [data]. rewrite length_replicate. lia. }
  repeat split.
  rewrite <- app_assoc. apply take_app_length.
Qed.

(** The whole effect of a replay on a committed capture state: one heap
    cell, the table, gets new contents. *)
Lemma replay_effect max_bs w bs req L :
  capture_state max_bs w ->
  exists r_sl tbl' res,
    cuda_graph_start_loc (self w) = Some r_sl
    /\ (r_sl < length (heap w))%nat
    /\ init_forward_metadata_replay_cuda_graph bs req L w
       = (with_heap w (<[r_sl := IntObj tbl']> (heap w)), res)
    /\ dtype tbl' = int32
    /\ shape0 tbl' = max_bs
    /\ (1 <= bs <= max_bs -> bs - 1 <= shape0 L ->
          res = Ok tt
          /\ data tbl' = offset_table int32 (data L) (Z.to_nat bs)
                         ++ replicate (Z.to_nat max_bs - Z.to_nat bs) 0)
    /\ (max_bs < bs -> 3 <= bs -> bs - 1 <= shape0 L ->
          res = Raise RuntimeError
          /\ data tbl' = replicate (Z.to_nat max_bs) 0).
Proof.
  intros (r_sl & r_al & tbl & acc & Hsl & Hal & Ht & Ha & Hd & Hn).
  unfold shape0 in *.
  pose proof (replay_run w bs req L r_sl tbl Hsl Ht) as Hrun.
  cbv zeta in Hrun. rewrite Hd in Hrun.
  assert (Hlt : (r_sl < length (heap w))%nat)
    by (eapply lookup_lt_Some; eassumption).
  destruct (assign_slice int32 (replicate (length (data tbl)) 0)
              (Some 1) (Some bs)
              (torch_cumsum (getitem_slice L None (Some (bs - 1)))))
    as [vals|e] eqn:EA.
  - exists r_sl, {| dtype := int32; data := vals |}, (Ok tt).
    pose proof (assign_slice_length _ _ _ _ _ _ EA) as Hlen.
    rewrite length_replicate in Hlen. cbn [dtype data].
    split; [assumption|]. split; [assumption|]. split; [exact Hrun|].
    split; [reflexivity|]. split; [lia|]. split.
    + intros Hbs HL. destruct L as [dt xs]. cbn [data] in *.
      rewrite assign_cumsum_ok in EA by lia.
      injection EA as <-. split; [reflexivity|]. do 2 f_equal. lia.
    + intros Hbs H3 HL. destruct L as [dt xs]. cbn [data] in *.
      rewrite assign_cumsum_raise in EA by lia. discriminate.
  - exists r_sl, {| dtype := int32;
                    data := replicate (length (data tbl)) 0 |}, (Raise e).
    cbn [dtype data]. rewrite length_replicate.
    split; [assumption|]. split; [assumption|]. split; [exact Hrun|].
    split; [reflexivity|]. split; [lia|]. split.
    + intros Hbs HL. destruct L as [dt xs]. cbn [data] in *.
      rewrite assign_cumsum_ok in EA by lia. discriminate.
    + intros Hbs H3 HL. destruct L as [dt xs]. cbn [data] in *.
      rewrite assign_cumsum_raise in EA by lia.
      split; [congruence|]. f_equal. lia.
Qed.

(** Overwriting the table keeps the capture state committed. *)
Lemma capture_state_insert max_bs w r_sl tbl' :
  capture_state max_bs w ->
  cuda_graph_start_loc (self w) = Some r_sl ->
  dtype tbl' = int32 -> shape0 tbl' = max_bs ->
  capture_state max_bs (with_heap w (<[r_sl := IntObj tbl']> (heap w))).
Proof.
  intros (r & r_al & tbl & acc & Hsl & Hal & Ht & Ha & Hd & Hn) Hr Hd' Hn'.
  assert (r = r_sl) as -> by congruence.
  exists r_sl, r_al, tbl', acc. cbn [with_heap self heap].
  repeat split; try assumption.
  - apply list_lookup_insert_eq. eapply lookup_lt_Some; eassumption.
  - rewrite list_lookup_insert_ne; [assumption|]. intros ->. congruence.
Qed.

End Replay.

(** ** The example configurations at work *)

Module ExampleStates.
Import Examples SubBatchExample.

Lemma init_runner : __init__ server_args runner = Ok backend.
Proof. reflexivity. Qed.

(** Decode over lengths [4, 1, 7]: offsets [0, 4, 5], a [8 x 12]
    accumulator and [max_seq_len = 7]. *)
Lemma decode_4_1_7 :
  let w := fst (init_forward_metadata (decode_batch [4; 1; 7]) world) in
  metadata_start_loc w = Some (lens [0; 4; 5])
  /\ (rows <$> metadata_attn_logits w) = Some 8
  /\ (cols <$> metadata_attn_logits w) = Some 12
  /\ metadata_max_seq_len w = Some 7
  /\ metadata_max_extend_len w = None.
Proof. vm_compute. repeat split. Qed.

(** Extend over lengths [10, 6] with prefixes [8, 6]:
    [max_extend_len = 2]. *)
Lemma extend_10_6 :
  let w := fst (init_forward_metadata (extend_batch [10; 6] [8; 6]) world) in
  metadata_max_extend_len w = Some 2 /\ metadata_start_loc w = None.
Proof. vm_compute. repeat split. Qed.

(** Sub-batch [0, 2] of lengths [3, 5, 2, 9]: offsets [0, 3]. *)
Lemma sub_batch_3_5_2_9 :
  let fb := with_indices (decode_batch [3; 5; 2; 9]) [0; 2] in
  effective_seq_lens fb = Ok (lens [3; 2])
  /\ metadata_start_loc (fst (init_forward_metadata fb world))
     = Some (lens [0; 3]).
Proof. vm_compute. repeat split. Qed.

Lemma capture_world_2 : capture_state 2 (capture_world 2).
Proof. apply (init_cuda_graph_state_commits world 2). reflexivity. Qed.

Lemma capture_world_3 : capture_state 3 (capture_world 3).
Proof. apply (init_cuda_graph_state_commits world 3). reflexivity. Qed.

Lemma capture_world_4 : capture_state 4 (capture_world 4).
Proof. apply (init_cuda_graph_state_commits world 4). reflexivity. Qed.

Lemma replayed_world_state : capture_state 2 replayed_world.
Proof.
  exists 0%nat, 1%nat, (lens [0; 7]),
    (fresh_accumulator world 1%nat 8 (2 * 4096) float16).
  repeat split.
Qed.

Lemma kernel_arguments :
  snd (forward_extend batch built)
  = Ok {| ea_seq_lens := lens [3; 2];
          ea_extend_seq_lens := lens [2; 2];
          ea_extend_start_loc := lens [0; 2];
          ea_max_extend_len := Some 2 |}.
Proof. reflexivity. Qed.

End ExampleStates.




(** C5, as amended.  The replay makes no capacity check.  Whatever the
    batch size, it touches one heap cell only, the table, which keeps its
    dtype and its [max_bs] entries: nothing is written outside the
    pre-allocated table.  For a batch size [bs > max_bs] with [bs >= 3]
    (and at least [bs - 1] lengths) the replay raises, and it does so from
    the slice assignment, after the table has been zeroed. *)
Theorem replay_capacity max_bs w bs req L :
  capture_state max_bs w ->
  exists w' res r_sl,
    init_forward_metadata_replay_cuda_graph bs req L w = (w', res)
    /\ capture_state max_bs w'
    /\ self w' = self w
    /\ length (heap w') = length (heap w)
    /\ cuda_graph_start_loc (self w) = Some r_sl
    /\ (forall l, l <> r_sl -> heap w' !! l = heap w !! l)
    /\ (max_bs < bs -> 3 <= bs -> bs - 1 <= shape0 L ->
          res = Raise RuntimeError
          /\ cuda_graph_table w'
             = Some {| dtype := int32;
                       data := replicate (Z.to_nat max_bs) 0 |}).
Proof.
  intros Hcs.
  destruct (replay_effect max_bs w bs req L Hcs)
    as (r_sl & tbl' & res & Hr & Hlt & Hrun & Hd & Hn & _ & Hraise).
  eexists _, res, r_sl.
  split; [exact Hrun|].
  split; [apply capture_state_insert; assumption|].
  unfold with_heap; cbn [self heap].
  split; [reflexivity|].
  split; [apply length_insert|].
  split; [assumption|].
  split; [intros l Hl; apply list_lookup_insert_ne; congruence|].
  intros H1 H2 H3. destruct (Hraise H1 H2 H3) as [-> Hdata].
  split; [reflexivity|].
  unfold cuda_graph_table, lookup_int, with_heap. cbn [self heap].
  rewrite Hr, list_lookup_insert_eq by assumption.
  destruct tbl' as [d xs]. cbn [dtype data] in Hd, Hdata.
  rewrite Hd, Hdata. reflexivity.
Qed.

(** Five requests replayed on a table for two: the replay raises, the
    table is zeroed, and nothing else is touched. *)
Lemma replay_capacity_witness :
  exists w' r_sl,
    init_forward_metadata_replay_cuda_graph
      5 (Examples.lens [0; 1; 2; 3; 4]) (Examples.lens [4; 1; 7; 1; 1])
      (Examples.capture_world 2) = (w', Raise RuntimeError)
    /\ capture_state 2 w'
    /\ self w' = self (Examples.capture_world 2)
    /\ length (heap w') = length (heap (Examples.capture_world 2))
    /\ cuda_graph_start_loc (self (Examples.capture_world 2)) = Some r_sl
    /\ (forall l, l <> r_sl ->
          heap w' !! l = heap (Examples.capture_world 2) !! l)
    /\ cuda_graph_table w'
       = Some {| dtype := int32; data := replicate (Z.to_nat 2) 0 |}.
Proof.
  destruct (replay_capacity 2 (Examples.capture_world 2) 5
              (Examples.lens [0; 1; 2; 3; 4]) (Examples.lens [4; 1; 7; 1; 1])
              ExampleStates.capture_world_2)
    as (w' & res & r_sl & H1 & H2 & H3 & H4 & H5 & H6 & H7).
  destruct H7 as [-> H8]; [lia | lia | vm_compute; discriminate |].
  exists w', r_sl.
  split; [exact H1|]. split; [exact H2|]. split; [exact H3|].
  split; [exact H4|]. split; [exact H5|]. split; [exact H6|]. exact H8.
Defined.

(** C5 as stated fails: a replay beyond the capacity raises only after it
    has overwritten the table.  The table for two requests holds [0, 7]
    from an earlier replay; the replay of three requests raises and leaves
    [0, 0]. *)
Lemma replay_writes_before_failing_counterexample :
  capture_state 2 Examples.replayed_world
  /\ cuda_graph_table Examples.replayed_world = Some (Examples.lens [0; 7])
  /\ exists w',
       init_forward_metadata_replay_cuda_graph
         3 (Examples.lens [0; 1; 2]) (Examples.lens [1; 1; 1])
         Examples.replayed_world = (w', Raise RuntimeError)
       /\ cuda_graph_table w' = Some (Examples.lens [0; 0]).
Proof.
  split; [exact ExampleStates.replayed_world_state|].
  split; [reflexivity|].
  eexists. split; vm_compute; reflexivity.
Qed.

(** A single cumulative sum broadcasts into the empty slice: the replay of
    two requests on a table for one returns, having written nothing but
    the zero. *)
Lemma replay_two_on_table_of_one :
  exists w',
    init_forward_metadata_replay_cuda_graph
      2 (Examples.lens [0; 1]) (Examples.lens [5; 5])
      (Examples.capture_world 1) = (w', Ok tt)
    /\ cuda_graph_table w' = Some (Examples.lens [0]).
Proof. eexists. split; vm_compute; reflexivity. Qed.




(** ** The extend branch *)

Section Extend.

Lemma promote_max_l a b : max_value a <= max_value (promote a b).
Proof. destruct a, b; vm_compute; discriminate. Qed.

Lemma promote_max_r a b : max_value b <= max_value (promote a b).
Proof. destruct a, b; vm_compute; discriminate. Qed.

Lemma min_max_value d : min_value d = - max_value d - 1.
Proof. destruct d; reflexivity. Qed.

(** The difference of two non-negative values of dtypes [a] and [b]
    fits their common dtype. *)
Lemma sub_in_range a b x y :
  in_range a x -> in_range b y -> 0 <= x -> 0 <= y ->
  in_range (promote a b) (x - y).
Proof.
  unfold in_range. rewrite !min_max_value.
  pose proof (promote_max_l a b). pose proof (promote_max_r a b). lia.
Qed.

(** Lengths are non-negative values of their dtype, so every difference
    [L[i] - P[i]] fits the common dtype. *)
Lemma lengths_difference_fits t p :
  wf_tensor t -> wf_tensor p ->
  Forall (fun x => 0 <= x) (data t) ->
  Forall (fun x => 0 <= x) (data p) ->
  forall i l q, data t !! i = Some l -> data p !! i = Some q ->
    in_range (promote (dtype t) (dtype p)) (l - q).
Proof.
  intros Wt Wp Nt Np i l q Hl Hq.
  apply sub_in_range.
  - exact (Forall_lookup_1 _ _ _ _ Wt Hl).
  - exact (Forall_lookup_1 _ _ _ _ Wp Hq).
  - exact (Forall_lookup_1 _ _ _ _ Nt Hl).
  - exact (Forall_lookup_1 _ _ _ _ Np Hq).
Qed.

(** Without overflow, [seq_lens - prefix_lens] of two tensors of one
    length holds the differences. *)
Lemma torch_sub_exact t p :
  length (data t) = length (data p) ->
  (forall i l q, data t !! i = Some l -> data p !! i = Some q ->
     in_range (promote (dtype t) (dtype p)) (l - q)) ->
  torch_sub t p
  = Ok {| dtype := promote (dtype t) (dtype p);
          data := zip_with Z.sub (data t) (data p) |}.
Proof.
  intros Hlen Hfit. unfold torch_sub, broadcast2.
  rewrite Hlen, Nat.eqb_refl. cbn [res_bind]. do 2 f_equal.
  apply list_eq. intros i.
  rewrite list_lookup_fmap, !lookup_zip_with.
  destruct (data t !! i) as [l|] eqn:El; [|reflexivity].
  destruct (data p !! i) as [q|] eqn:Eq; [|reflexivity].
  cbn. f_equal. apply wrap_id. eapply Hfit; eassumption.
Qed.

End Extend.

(** C6.  In extend mode with lengths [L] and prefix lengths [P] of equal
    size (every difference [L[i] - P[i]] being representable in the
    arrays' dtype, as it is for non-negative lengths),
    [init_forward_metadata] stores [None] for [start_loc], the accumulator
    and [max_seq_len], and for [max_extend_len] the maximum of the
    differences; for the empty batch [max_extend_len = 0]. *)
Theorem extend_metadata w fb t p :
  forward_mode fb = EXTEND ->
  effective_seq_lens fb = Ok t ->
  effective_prefix_lens fb = Ok p ->
  length (data t) = length (data p) ->
  (forall i l q, data t !! i = Some l -> data p !! i = Some q ->
     in_range (promote (dtype t) (dtype p)) (l - q)) ->
  exists w' m,
    init_forward_metadata fb w = (w', Ok tt)
    /\ forward_metadata (self w') = Some (None, None, None, Some m)
    /\ (data t = [] -> m = 0)
    /\ (data t <> [] ->
        (exists i l q, data t !! i = Some l /\ data p !! i = Some q
                       /\ m = l - q)
        /\ (forall i l q, data t !! i = Some l -> data p !! i = Some q ->
              l - q <= m)).
Proof.
  intros Hm Ht Hp Hlen Hfit.
  rewrite (init_forward_metadata_extend _ _ _ Hm Ht), Hp.
  unfold extend_len, shape0.
  destruct (data t) as [|x xs] eqn:EL.
  - cbn [length Z.of_nat Z.ltb Z.compare].
    eexists _, 0. split; [reflexivity|]. split; [reflexivity|].
    split; [reflexivity|]. intros H. congruence.
  - replace (0 <? Z.of_nat (length (x :: xs))) with true
      by (symmetry; apply Z.ltb_lt; cbn [length]; lia).
    rewrite torch_sub_exact by (rewrite ?EL; assumption).
    cbn [res_bind].
    destruct (torch_max_item
                {| dtype := promote (dtype t) (dtype p);
                   data := zip_with Z.sub (data t) (data p) |})
      as [m|e] eqn:EM.
    + apply torch_max_item_spec in EM as [Hin Hub]. cbn [data] in Hin, Hub.
      rewrite EL in Hin, Hub.
      eexists _, m. split; [reflexivity|]. split; [reflexivity|].
      split; [discriminate|]. intros _. split.
      * apply list_elem_of_lookup in Hin as [i Hi].
        rewrite lookup_zip_with in Hi.
        destruct ((x :: xs) !! i) as [l|] eqn:El; [|discriminate].
        destruct (data p !! i) as [q|] eqn:Eq; [|discriminate].
        cbn in Hi. injection Hi as <-. exists i, l, q.
        split; [exact El|]. split; [exact Eq|]. reflexivity.
      * intros i l q Hl Hq. apply Hub.
        apply list_elem_of_lookup. exists i.
        rewrite lookup_zip_with, Hl, Hq. reflexivity.
    + unfold torch_max_item in EM. cbn [data] in EM. rewrite EL in EM.
      destruct (data p) as [|y ys]; [discriminate Hlen|]. discriminate EM.
Qed.

(** The spec's extend scenario: lengths [10, 6], prefixes [8, 6]. *)
Lemma extend_metadata_witness :
  exists w' m,
    init_forward_metadata (Examples.extend_batch [10; 6] [8; 6]) Examples.world
    = (w', Ok tt)
    /\ forward_metadata (self w') = Some (None, None, None, Some m)
    /\ (exists i l q, [10; 6] !! i = Some l /\ [8; 6] !! i = Some q
                      /\ m = l - q)
    /\ (forall i l q, [10; 6] !! i = Some l -> [8; 6] !! i = Some q ->
          l - q <= m).
Proof.
  destruct (extend_metadata Examples.world
              (Examples.extend_batch [10; 6] [8; 6])
              (Examples.lens [10; 6]) (Examples.lens [8; 6])
              eq_refl eq_refl eq_refl eq_refl)
    as (w' & m & H1 & H2 & _ & H4).
  - intros i l q Hl Hq.
    destruct i as [|[|i]]; cbn in Hl, Hq; try discriminate;
      injection Hl as <-; injection Hq as <-; vm_compute; split; discriminate.
  - destruct H4 as [H5 H6]; [discriminate|].
    exists w', m.
    split; [exact H1|]. split; [exact H2|]. split; [exact H5|]. exact H6.
Defined.

(** ** Building the metadata twice *)

(** C9, as amended.  Two consecutive calls of [init_forward_metadata] on
    one batch end the same way, and when they succeed they store the same
    [start_loc] (dtype and values), the same [max_seq_len] and
    [max_extend_len], and accumulators of the same dtype and shape.  The
    contents of the accumulator are those of uninitialised memory and are
    not part of the agreement. *)
Theorem init_forward_metadata_repeatable fb w :
  exists w1 w2 res,
    init_forward_metadata fb w = (w1, res)
    /\ init_forward_metadata fb w1 = (w2, res)
    /\ (res = Ok tt ->
        metadata_start_loc w2 = metadata_start_loc w1
        /\ metadata_max_seq_len w2 = metadata_max_seq_len w1
        /\ metadata_max_extend_len w2 = metadata_max_extend_len w1
        /\ (fdtype <$> metadata_attn_logits w2)
           = (fdtype <$> metadata_attn_logits w1)
        /\ (rows <$> metadata_attn_logits w2)
           = (rows <$> metadata_attn_logits w1)
        /\ (cols <$> metadata_attn_logits w2)
           = (cols <$> metadata_attn_logits w1)).
Proof.
  destruct (effective_seq_lens fb) as [t|e] eqn:Ht.
  2: { exists w, w, (Raise e).
       rewrite (init_forward_metadata_raise _ _ _ Ht).
       split; [reflexivity|]. split; [reflexivity|]. discriminate. }
  destruct (forward_mode fb) eqn:Hm.
  - (* EXTEND *)
    pose proof (init_forward_metadata_extend w fb t Hm Ht) as H1.
    destruct (effective_prefix_lens fb) as [p|e] eqn:Hp.
    2: { exists w, w, (Raise e). rewrite H1.
         split; [reflexivity|]. split; [reflexivity|]. discriminate. }
    destruct (extend_len t p) as [m|e] eqn:Hl.
    2: { exists w, w, (Raise e). rewrite H1.
         split; [reflexivity|]. split; [reflexivity|]. discriminate. }
    eexists _, _, (Ok tt). split; [exact H1|].
    rewrite (init_forward_metadata_extend _ fb t Hm Ht), Hp, Hl.
    split; [reflexivity|]. intros _. repeat split.
  - (* DECODE *)
    pose proof (init_forward_metadata_decode w fb t Hm Ht) as H1.
    cbv zeta in H1.
    destruct ((num_head (self w) <? 0) || (torch_sum_item t <? 0)) eqn:Hc.
    + eexists _, _, (Raise RuntimeError). split; [exact H1|].
      rewrite (init_forward_metadata_decode _ fb t Hm Ht).
      unfold with_heap at 1 2. cbn [self]. rewrite Hc.
      split; [reflexivity|]. discriminate.
    + eexists _, _, (Ok tt). split; [exact H1|].
      rewrite (init_forward_metadata_decode _ fb t Hm Ht).
      cbn [self set_forward_metadata num_head reduce_dtype]. rewrite Hc.
      split; [reflexivity|]. intros _.
      rewrite !metadata_start_loc_decode by reflexivity.
      rewrite !metadata_attn_logits_decode by reflexivity.
      repeat split.
Qed.

(** Two decode builds over the lengths [4, 1, 7]. *)
Lemma init_forward_metadata_repeatable_witness :
  exists w1 w2,
    init_forward_metadata (Examples.decode_batch [4; 1; 7]) Examples.world
    = (w1, Ok tt)
    /\ init_forward_metadata (Examples.decode_batch [4; 1; 7]) w1 = (w2, Ok tt)
    /\ metadata_start_loc w2 = metadata_start_loc w1
    /\ metadata_max_seq_len w2 = metadata_max_seq_len w1
    /\ metadata_max_extend_len w2 = metadata_max_extend_len w1
    /\ (fdtype <$> metadata_attn_logits w2)
       = (fdtype <$> metadata_attn_logits w1)
    /\ (rows <$> metadata_attn_logits w2) = (rows <$> metadata_attn_logits w1)
    /\ (cols <$> metadata_attn_logits w2) = (cols <$> metadata_attn_logits w1).
Proof.
  destruct (init_forward_metadata_repeatable
              (Examples.decode_batch [4; 1; 7]) Examples.world)
    as (w1 & w2 & res & H1 & H2 & H3).
  assert (E : res = Ok tt) by (pose proof H1 as H; vm_compute in H; congruence).
  rewrite E in H1, H2.
  exists w1, w2. split; [exact H1|]. split; [exact H2|]. exact (H3 E).
Defined.

(** C9 as stated fails for the contents of the accumulator: two builds
    over the lengths [4, 1, 7] obtain their accumulators from different
    uninitialised memory, here holding different bits at position 0. *)
Lemma rebuild_accumulator_counterexample :
  exists w1 w2 a1 a2,
    init_forward_metadata (Examples.decode_batch [4; 1; 7]) Examples.world
    = (w1, Ok tt)
    /\ init_forward_metadata (Examples.decode_batch [4; 1; 7]) w1 = (w2, Ok tt)
    /\ metadata_attn_logits w1 = Some a1
    /\ metadata_attn_logits w2 = Some a2
    /\ raw a1 0 = 1
    /\ raw a2 0 = 3
    /\ a1 <> a2.
Proof.
  eexists _, _, _, _.
  split; [vm_compute; reflexivity|].
  split; [vm_compute; reflexivity|].
  split; [vm_compute; reflexivity|].
  split; [vm_compute; reflexivity|].
  split; [reflexivity|]. split; [reflexivity|].
  intros H. apply (f_equal (fun a => raw a 0)) in H. vm_compute in H.
  discriminate.
Qed.

(** ** The stored tuple holds the fields of one mode *)

(** C10.  After every successful [init_forward_metadata], in either mode,
    and after every successful
    [init_forward_metadata_capture_cuda_graph], the stored tuple holds
    either the three decode fields and no [max_extend_len], or
    [max_extend_len] alone. *)
Theorem forward_metadata_mode_exclusive w w' :
  (exists fb, init_forward_metadata fb w = (w', Ok tt))
  \/ (exists bs req seq_lens,
        init_forward_metadata_capture_cuda_graph bs req seq_lens w
        = (w', Ok tt)) ->
  exists md, forward_metadata (self w') = Some md /\ mode_exclusive md.
Proof.
  intros [[fb H]|(bs & req & sl & H)].
  - destruct (effective_seq_lens fb) as [t|e] eqn:Ht.
    2: { rewrite (init_forward_metadata_raise _ _ _ Ht) in H. discriminate. }
    destruct (forward_mode fb) eqn:Hm.
    + rewrite (init_forward_metadata_extend _ _ _ Hm Ht) in H.
      destruct (effective_prefix_lens fb); [|discriminate].
      destruct (extend_len t a); [|discriminate].
      injection H as <-. eexists. split; [reflexivity|].
      right. repeat split; eauto.
    + rewrite (init_forward_metadata_decode _ _ _ Hm Ht) in H.
      destruct (_ || _); [discriminate|].
      injection H as <-. eexists. split; [reflexivity|].
      left. repeat split; eauto.
  - rewrite capture_run in H.
    destruct (cuda_graph_start_loc (self w)); [|discriminate].
    destruct (cuda_graph_attn_logits (self w)); [|discriminate].
    injection H as <-. eexists. split; [reflexivity|].
    left. repeat split; eauto.
Qed.

(** The decode build over [4, 1, 7]. *)
Lemma forward_metadata_mode_exclusive_witness :
  exists md,
    forward_metadata
      (self (fst (init_forward_metadata (Examples.decode_batch [4; 1; 7])
                    Examples.world))) = Some md
    /\ mode_exclusive md.
Proof.
  apply (forward_metadata_mode_exclusive Examples.world).
  left. exists (Examples.decode_batch [4; 1; 7]). reflexivity.
Defined.

(** ** Sub-batches *)

Section SubBatch.



(** Indices within [-n, n) never raise. *)
Lemma getitem_index_total t idx :
  Forall (fun i => - shape0 t <= i < shape0 t) idx ->
  exists s, getitem_index t idx = Ok s.
Proof.
  unfold getitem_index, shape0. intros H.
  assert (exists vals, getitem_list (data t) idx = Ok vals) as [vals ->].
  { induction H as [|i idx Hi _ [vals IH]]; cbn [getitem_list].
    - eexists. reflexivity.
    - unfold getitem_one.
      destruct (Z.leb_spec (- Z.of_nat (length (data t))) i); [|lia].
      destruct (Z.ltb_spec i (Z.of_nat (length (data t)))); [|lia].
      cbn [andb].
      destruct (lookup_lt_is_Some_2 (data t)
                  (Z.to_nat (if i <? 0
                             then i + Z.of_nat (length (data t)) else i)))
        as [x ->].
      { destruct (Z.ltb_spec i 0); lia. }
      rewrite IH. eexists. reflexivity. }
  eexists. reflexivity.
Qed.

(** [forward_extend] on a batch with an index list: both length arrays
    are re-sliced and the offsets are rebuilt from the re-sliced
    new-token lengths, in a fresh tensor. *)
Lemma forward_extend_sliced w fb idx sl el :
  local_seq_indices fb = Some idx ->
  getitem_index (seq_lens fb) idx = Ok sl ->
  getitem_index (extend_seq_lens fb) idx = Ok el ->
  forward_extend fb w
  = let w1 := with_heap w (heap w ++ [IntObj (offsets_tensor el)]) in
    match forward_metadata (self w) with
    | None => (w1, Raise TypeError)
    | Some md =>
        (w1, Ok {| ea_seq_lens := sl;
                   ea_extend_seq_lens := el;
                   ea_extend_start_loc := offsets_tensor el;
                   ea_max_extend_len := md.2 |})
    end.
Proof.
  intros Hi Hs He. unfold forward_extend. rewrite Hi.
  unfold bind at 1. unfold bind at 1. unfold lift at 1. rewrite Hs.
  unfold bind at 1. unfold lift at 1. rewrite He.
  unfold bind at 1. unfold torch_zeros_like, alloc. cbn [heap uninit self].
  unfold bind at 1.
  erewrite setitem_slice_run
    by (cbn [heap]; apply list_lookup_middle; reflexivity).
  cbn [dtype data]. rewrite assign_cumsum_decode.
  unfold with_heap. cbn [heap uninit self].
  rewrite insert_app_r_alt, Nat.sub_diag by lia. cbn [insert list_insert].
  unfold bind at 1. unfold load_int. cbn [heap].
  rewrite list_lookup_middle by reflexivity.
  unfold ret, bind, get_self. cbn [self fst snd].
  destruct (forward_metadata (self w)) as [[[[a b] c] d]|]; reflexivity.
Qed.

Lemma forward_extend_plain w fb :
  local_seq_indices fb = None ->
  forward_extend fb w
  = match forward_metadata (self w) with
    | None => (w, Raise TypeError)
    | Some md =>
        (w, Ok {| ea_seq_lens := seq_lens fb;
                  ea_extend_seq_lens := extend_seq_lens fb;
                  ea_extend_start_loc := extend_start_loc fb;
                  ea_max_extend_len := md.2 |})
    end.
Proof.
  intros Hi. unfold forward_extend. rewrite Hi.
  unfold bind, ret, get_self. cbn [fst snd].
  destruct (forward_metadata (self w)) as [[[[a b] c] d]|]; reflexivity.
Qed.


End SubBatch.



(** ** The empty batch *)

Section EmptyBatch.




End EmptyBatch.



(** With a non-empty lengths buffer the same replay of no request raises:
    [seq_lens[:-1]] then has two elements for an empty slice. *)
Lemma replay_zero_nonempty_buffer :
  snd (init_forward_metadata_replay_cuda_graph
         0 (Examples.lens []) (Examples.lens [1; 1; 1])
         (Examples.capture_world 4)) = Raise RuntimeError.
Proof. reflexivity. Qed.

(** ** Histories of method calls *)

Section Histories.

Lemma stable_refl w : stable w w.
Proof. split; try reflexivity; eauto. Qed.

Lemma stable_trans w1 w2 w3 : stable w1 w2 -> stable w2 w3 -> stable w1 w3.
Proof.
  intros [a1 b1 c1 f1 i1] [a2 b2 c2 f2 i2]. split; try congruence.
  - intros r acc H. apply f2, f1, H.
  - intros r t H. destruct (i1 r t H) as (t' & H' & Hd & Hl).
    destruct (i2 r t' H') as (t'' & H'' & Hd' & Hl').
    exists t''. repeat split; congruence.
Qed.

(** Growing the heap at its end. *)
Lemma stable_grow w w' extra :
  num_head (self w') = num_head (self w) ->
  reduce_dtype (self w') = reduce_dtype (self w) ->
  cuda_graph_max_seq_len (self w') = cuda_graph_max_seq_len (self w) ->
  heap w' = heap w ++ extra ->
  stable w w'.
Proof.
  intros Ha Hb Hc Hh. split; try assumption.
  - intros r acc H. rewrite Hh. apply lookup_app_l_Some. assumption.
  - intros r t H. exists t. rewrite Hh.
    split; [apply lookup_app_l_Some; assumption|]. split; reflexivity.
Qed.

(** Overwriting the contents of one integer tensor. *)
Lemma stable_overwrite w w' r t t' :
  self w' = self w ->
  heap w !! r = Some (IntObj t) ->
  dtype t' = dtype t -> length (data t') = length (data t) ->
  heap w' = <[r := IntObj t']> (heap w) ->
  stable w w'.
Proof.
  intros Hs Hr Hd Hl Hh. split; try (rewrite Hs; reflexivity).
  - intros r0 acc H. rewrite Hh.
    rewrite list_lookup_insert_ne; [assumption|]. intros ->. congruence.
  - intros r0 t0 H. rewrite Hh.
    destruct (decide (r = r0)) as [->|Hne].
    + exists t'. rewrite list_lookup_insert_eq
        by (eapply lookup_lt_Some; eassumption).
      assert (t0 = t) as -> by congruence. repeat split; assumption.
    + exists t0. rewrite list_lookup_insert_ne by assumption.
      repeat split; assumption.
Qed.

Lemma replay_bad_table w bs req sl r :
  cuda_graph_start_loc (self w) = Some r ->
  (forall t, heap w !! r <> Some (IntObj t)) ->
  init_forward_metadata_replay_cuda_graph bs req sl w = (w, Raise TypeError).
Proof.
  intros Hr Hbad.
  unfold init_forward_metadata_replay_cuda_graph, bind, get_attr, zero_,
    bind, load_int.
  rewrite Hr.
  destruct (heap w !! r) as [[t|a]|] eqn:E; try reflexivity.
  exfalso. eapply Hbad. reflexivity.
Qed.

Lemma init_forward_metadata_stable fb w :
  stable w (fst (init_forward_metadata fb w))
  /\ attrs_kept w (fst (init_forward_metadata fb w)).
Proof.
  unfold attrs_kept.
  destruct (effective_seq_lens fb) as [t|e] eqn:Ht.
  2: { rewrite (init_forward_metadata_raise _ _ _ Ht).
       split; [apply stable_refl|split; reflexivity]. }
  destruct (forward_mode fb) eqn:Hm.
  - rewrite (init_forward_metadata_extend _ _ _ Hm Ht).
    destruct (effective_prefix_lens fb) as [p|e];
      [|split; [apply stable_refl|split; reflexivity]].
    destruct (extend_len t p) as [m|e];
      [|split; [apply stable_refl|split; reflexivity]].
    split; [|split; reflexivity].
    apply (stable_grow _ _ []); try reflexivity.
    cbn [fst with_self heap]. rewrite app_nil_r. reflexivity.
  - rewrite (init_forward_metadata_decode _ _ _ Hm Ht). cbv zeta.
    destruct (_ || _); (split; [|split; reflexivity]).
    + eapply stable_grow; reflexivity.
    + eapply stable_grow; try reflexivity.
      cbn [fst heap]. rewrite <- app_assoc. reflexivity.
Qed.

Lemma init_cuda_graph_state_stable max_bs w :
  stable w (fst (init_cuda_graph_state max_bs w)).
Proof.
  rewrite init_cuda_graph_state_run. cbv zeta.
  destruct (max_bs <? 0).
  - apply (stable_grow _ _ []); try reflexivity.
    cbn [fst with_self heap]. rewrite app_nil_r. reflexivity.
  - destruct (_ || _).
    + eapply stable_grow; reflexivity.
    + eapply stable_grow; try reflexivity.
      cbn [fst heap]. rewrite <- app_assoc. reflexivity.
Qed.

Lemma capture_stable bs req sl w :
  stable w (fst (init_forward_metadata_capture_cuda_graph bs req sl w))
  /\ attrs_kept w (fst (init_forward_metadata_capture_cuda_graph bs req sl w)).
Proof.
  unfold attrs_kept. rewrite capture_run.
  destruct (cuda_graph_start_loc (self w)) eqn:E1;
    [|split; [apply stable_refl|split; frame_solve]].
  destruct (cuda_graph_attn_logits (self w)) eqn:E2;
    [|split; [apply stable_refl|split; frame_solve]].
  split; [|split; frame_solve].
  apply (stable_grow _ _ []); try reflexivity.
  cbn [fst with_self heap]. rewrite app_nil_r. reflexivity.
Qed.

Lemma replay_stable bs req sl w :
  stable w (fst (init_forward_metadata_replay_cuda_graph bs req sl w))
  /\ attrs_kept w (fst (init_forward_metadata_replay_cuda_graph bs req sl w)).
Proof.
  unfold attrs_kept.
  destruct (cuda_graph_start_loc (self w)) as [r|] eqn:Hr.
  2: { rewrite (replay_no_state _ _ _ _ Hr).
       split; [apply stable_refl|split; frame_solve]. }
  destruct (heap w !! r) as [[t|a]|] eqn:E.
  - rewrite (replay_run _ _ _ _ _ _ Hr E). cbv zeta.
    destruct (assign_slice _ _ _ _ _) as [vals|e] eqn:EA;
      (split; [|split; frame_solve]).
    + apply (stable_overwrite _ _ r t {| dtype := dtype t; data := vals |});
        [reflexivity | exact E | reflexivity | | reflexivity].
      cbn [data]. apply assign_slice_length in EA.
      rewrite length_replicate in EA. exact EA.
    + apply (stable_overwrite _ _ r t
               {| dtype := dtype t;
                  data := replicate (length (data t)) 0 |});
        [reflexivity | exact E | reflexivity | | reflexivity].
      cbn [data]. apply length_replicate.
  - rewrite (replay_bad_table _ _ _ _ _ Hr) by (intros t; congruence).
    split; [apply stable_refl|split; frame_solve].
  - rewrite (replay_bad_table _ _ _ _ _ Hr) by (intros t; congruence).
    split; [apply stable_refl|split; frame_solve].
Qed.

Lemma forward_extend_stable fb w :
  stable w (fst (forward_extend fb w))
  /\ attrs_kept w (fst (forward_extend fb w)).
Proof.
  unfold attrs_kept.
  destruct (local_seq_indices fb) as [idx|] eqn:Hi.
  - destruct (getitem_index (seq_lens fb) idx) as [sl|e] eqn:Hs.
    2: { unfold forward_extend, bind, lift. rewrite Hi, Hs.
         split; [apply stable_refl|split; reflexivity]. }
    destruct (getitem_index (extend_seq_lens fb) idx) as [el|e] eqn:He.
    2: { unfold forward_extend, bind, lift. rewrite Hi, Hs, He.
         split; [apply stable_refl|split; reflexivity]. }
    rewrite (forward_extend_sliced _ _ _ _ _ Hi Hs He). cbv zeta.
    destruct (forward_metadata (self w));
      (split; [eapply stable_grow; reflexivity|split; reflexivity]).
  - rewrite (forward_extend_plain _ _ Hi).
    destruct (forward_metadata (self w));
      (split; [apply stable_refl|split; reflexivity]).
Qed.

Lemma forward_decode_stable fb w :
  stable w (fst (forward_decode fb w))
  /\ attrs_kept w (fst (forward_decode fb w)).
Proof.
  unfold attrs_kept, forward_decode, bind, get_self, lift, ret, raise.
  destruct (forward_metadata (self w)) as [[[[a b] c] d]|];
    [|split; [apply stable_refl|split; reflexivity]].
  destruct (effective_seq_lens fb);
    (split; [apply stable_refl|split; reflexivity]).
Qed.

Lemma run_call_stable c w : stable w (run_call c w).
Proof.
  destruct c; cbn [run_call].
  - apply init_forward_metadata_stable.
  - apply init_cuda_graph_state_stable.
  - apply capture_stable.
  - apply replay_stable.
  - apply forward_extend_stable.
  - apply forward_decode_stable.
Qed.

Lemma run_call_attrs c w :
  commits_capture_state c = false -> attrs_kept w (run_call c w).
Proof.
  destruct c; cbn [run_call commits_capture_state]; intros H;
    try discriminate.
  - apply init_forward_metadata_stable.
  - apply capture_stable.
  - apply replay_stable.
  - apply forward_extend_stable.
  - apply forward_decode_stable.
Qed.

Lemma run_calls_stable cs : forall w, stable w (run_calls cs w).
Proof.
  induction cs as [|c cs IH]; intros w; cbn [run_calls fold_left].
  - apply stable_refl.
  - eapply stable_trans; [apply run_call_stable|apply IH].
Qed.

Lemma run_calls_attrs cs : forall w,
  forallb (fun c => negb (commits_capture_state c)) cs = true ->
  attrs_kept w (run_calls cs w).
Proof.
  induction cs as [|c cs IH]; intros w H; cbn [run_calls fold_left].
  - split; reflexivity.
  - cbn [forallb] in H. apply andb_true_iff in H as [Hc Hcs].
    apply negb_true_iff in Hc.
    destruct (run_call_attrs c w Hc) as [H1 H2].
    destruct (IH (run_call c w) Hcs) as [H3 H4].
    unfold run_calls in H3, H4. split; congruence.
Qed.

End Histories.

(** C7.  Take any history that starts at [__init__], reaches a successful
    [init_cuda_graph_state(max_bs)], and goes on with any calls other than
    [init_cuda_graph_state].  Then
    [init_forward_metadata_capture_cuda_graph], whatever its arguments,
    succeeds and stores the two locations that [init_cuda_graph_state]
    allocated (the int32 table of [max_bs] entries and the accumulator of
    [num_head] rows and [max_bs * context_len] columns), the configured
    context length as [max_seq_len], and [None] as [max_extend_len]; it
    allocates nothing. *)
Theorem capture_uses_preallocated_buffers
    args mr b h u before max_bs w1 after bs req seq_lens :
  __init__ args mr = Ok b ->
  let w0 := run_calls before {| heap := h; uninit := u; self := b |} in
  init_cuda_graph_state max_bs w0 = (w1, Ok tt) ->
  forallb (fun c => negb (commits_capture_state c)) after = true ->
  let w := run_calls after w1 in
  exists w' tbl,
    init_forward_metadata_capture_cuda_graph bs req seq_lens w = (w', Ok tt)
    /\ forward_metadata (self w')
       = Some (Some (length (heap w0)), Some (S (length (heap w0))),
               Some (context_len (model_config mr)), None)
    /\ cuda_graph_start_loc (self w') = Some (length (heap w0))
    /\ cuda_graph_attn_logits (self w') = Some (S (length (heap w0)))
    /\ heap w' = heap w
    /\ metadata_start_loc w' = Some tbl
    /\ dtype tbl = int32
    /\ shape0 tbl = max_bs
    /\ metadata_attn_logits w'
       = Some (fresh_accumulator w0 (S (length (heap w0))) (num_head b)
                 (max_bs * context_len (model_config mr)) (reduce_dtype b)).
Proof.
  intros Hinit w0 Hcommit Hafter w.
  assert (Hb : cuda_graph_max_seq_len b = context_len (model_config mr)).
  { unfold __init__, res_bind in Hinit.
    destruct (if enable_mla_dp args then _ else _); [|discriminate].
    injection Hinit as <-. reflexivity. }
  pose proof (run_calls_stable before {| heap := h; uninit := u; self := b |})
    as S0. fold w0 in S0. cbn [self] in S0.
  destruct (init_cuda_graph_state_commits _ _ _ Hcommit)
    as (_ & Hsl & Hal & Htbl & Hacc & Hmax & _).
  pose proof (run_calls_stable after w1) as S1. fold w in S1.
  destruct (run_calls_attrs after w1 Hafter) as [A1 A2].
  fold w in A1, A2. rewrite Hsl in A1. rewrite Hal in A2.
  unfold cuda_graph_table, lookup_int in Htbl. rewrite Hsl in Htbl.
  unfold cuda_graph_accumulator, lookup_float in Hacc. rewrite Hal in Hacc.
  match type of Htbl with
  | match ?x with _ => _ end = _ =>
      destruct x as [[?|?]|] eqn:E1; try discriminate Htbl
  end.
  injection Htbl as ->.
  match type of Hacc with
  | match ?x with _ => _ end = _ =>
      destruct x as [[?|?]|] eqn:E2; try discriminate Hacc
  end.
  injection Hacc as ->.
  destruct (st_int _ _ S1 _ _ E1) as (tbl & Etbl & Hd & Hl).
  pose proof (st_float _ _ S1 _ _ E2) as Eacc.
  rewrite capture_run, A1, A2.
  eexists _, tbl. split; [reflexivity|].
  unfold metadata_start_loc, metadata_attn_logits, lookup_int, lookup_float,
    with_self.
  cbn [self heap set_forward_metadata forward_metadata cuda_graph_start_loc
       cuda_graph_attn_logits].
  unfold loc in *. rewrite Etbl, Eacc, A1, A2.
  pose proof (st_max_seq_len _ _ S0) as M0.
  pose proof (st_num_head _ _ S0) as N0.
  pose proof (st_reduce_dtype _ _ S0) as R0.
  cbn [self] in M0, N0, R0.
  rewrite (st_max_seq_len _ _ S1), Hmax, M0, Hb, N0, R0.
  repeat split; try assumption.
  unfold shape0. rewrite Hl. cbn [data]. rewrite length_replicate.
  rewrite init_cuda_graph_state_run in Hcommit.
  destruct (Z.ltb_spec max_bs 0); [discriminate|]. lia.
Qed.

(** A build, the commitment of a table for four, a replay, an extend
    build and an extend step, and then the capture. *)
Lemma capture_uses_preallocated_buffers_witness :
  let w0 := run_calls CaptureExample.before Examples.world in
  let w := run_calls CaptureExample.after CaptureExample.committed in
  exists w' tbl,
    init_forward_metadata_capture_cuda_graph
      2 (Examples.lens [5; 6]) (Examples.lens [9; 9]) w = (w', Ok tt)
    /\ forward_metadata (self w')
       = Some (Some (length (heap w0)), Some (S (length (heap w0))),
               Some (context_len (model_config Examples.runner)), None)
    /\ cuda_graph_start_loc (self w') = Some (length (heap w0))
    /\ cuda_graph_attn_logits (self w') = Some (S (length (heap w0)))
    /\ heap w' = heap w
    /\ metadata_start_loc w' = Some tbl
    /\ dtype tbl = int32
    /\ shape0 tbl = 4
    /\ metadata_attn_logits w'
       = Some (fresh_accumulator w0 (S (length (heap w0)))
                 (num_head Examples.backend)
                 (4 * context_len (model_config Examples.runner))
                 (reduce_dtype Examples.backend)).
Proof.
  apply (capture_uses_preallocated_buffers
           Examples.server_args Examples.runner Examples.backend
           [] (fun l _ => Z.of_nat l) CaptureExample.before 4
           CaptureExample.committed CaptureExample.after
           2 (Examples.lens [5; 6]) (Examples.lens [9; 9])).
  - reflexivity.
  - reflexivity.
  - reflexivity.
Defined.

(** * Further properties of the backend *)

(** ** The decode build beyond the offsets *)

Section DecodeBuild.





End DecodeBuild.





(** ** What a build leaves alone *)

Section BuildFrame.

(** A build only appends to the heap, and assigns [forward_metadata] only
    when it returns. *)
Lemma init_forward_metadata_effect fb w :
  exists extra,
    heap (fst (init_forward_metadata fb w)) = heap w ++ extra
    /\ match snd (init_forward_metadata fb w) with
       | Ok _ => exists md, self (fst (init_forward_metadata fb w))
                            = set_forward_metadata md (self w)
       | Raise _ => self (fst (init_forward_metadata fb w)) = self w
       end.
Proof.
  destruct (effective_seq_lens fb) as [t|e] eqn:Ht.
  2: { rewrite (init_forward_metadata_raise _ _ _ Ht). exists [].
       cbn [fst snd]. rewrite app_nil_r. split; reflexivity. }
  destruct (forward_mode fb) eqn:Hm.
  - rewrite (init_forward_metadata_extend _ _ _ Hm Ht).
    destruct (effective_prefix_lens fb) as [p|e];
      [|exists []; cbn [fst snd]; rewrite app_nil_r; split; reflexivity].
    destruct (extend_len t p) as [m|e];
      exists []; cbn [fst snd with_self heap self]; rewrite app_nil_r;
      (split; [reflexivity|]); [eexists|]; reflexivity.
  - rewrite (init_forward_metadata_decode _ _ _ Hm Ht). cbv zeta.
    destruct (_ || _); cbn [fst snd with_heap heap self].
    + eexists. split; reflexivity.
    + eexists. rewrite <- app_assoc. split; [reflexivity|].
      eexists. reflexivity.
Qed.

End BuildFrame.

(** X3.  A build that raises leaves every attribute of the backend as it
    was, the previously stored [forward_metadata] included, and leaves
    every tensor that existed before untouched. *)
Theorem failed_build_keeps_metadata fb w w' e :
  init_forward_metadata fb w = (w', Raise e) ->
  self w' = self w
  /\ take (length (heap w)) (heap w') = heap w.
Proof.
  intros H. destruct (init_forward_metadata_effect fb w) as (extra & Hh & Hs).
  rewrite H in Hh, Hs. cbn [fst snd] in Hh, Hs.
  split; [exact Hs|]. rewrite Hh. apply take_app_length.
Qed.

(** A decode build over [4, 1, 7] followed by a build whose index list
    names request 5 of 3. *)
Lemma failed_build_keeps_metadata_witness :
  let w := fst (init_forward_metadata (Examples.decode_batch [4; 1; 7])
                  Examples.world) in
  let fb := Examples.with_indices (Examples.decode_batch [4; 1; 7]) [5] in
  snd (init_forward_metadata fb w) = Raise IndexError
  /\ self (fst (init_forward_metadata fb w)) = self w
  /\ take (length (heap w)) (heap (fst (init_forward_metadata fb w))) = heap w.
Proof.
  split; [reflexivity|].
  apply (failed_build_keeps_metadata
           (Examples.with_indices (Examples.decode_batch [4; 1; 7]) [5])
           (fst (init_forward_metadata (Examples.decode_batch [4; 1; 7])
                   Examples.world))
           _ IndexError).
  reflexivity.
Defined.

(** X4.  A build, returning or raising, never disturbs the capture state:
    the two capture attributes, the configuration, the capture table with
    its contents and the capture accumulator are what they were. *)
Theorem build_leaves_capture_state fb w tbl acc :
  cuda_graph_table w = Some tbl ->
  cuda_graph_accumulator w = Some acc ->
  let w' := fst (init_forward_metadata fb w) in
  cuda_graph_table w' = Some tbl
  /\ cuda_graph_accumulator w' = Some acc
  /\ cuda_graph_start_loc (self w') = cuda_graph_start_loc (self w)
  /\ cuda_graph_attn_logits (self w') = cuda_graph_attn_logits (self w)
  /\ cuda_graph_max_seq_len (self w') = cuda_graph_max_seq_len (self w)
  /\ num_head (self w') = num_head (self w)
  /\ reduce_dtype (self w') = reduce_dtype (self w).
Proof.
  intros Htbl Hacc w'. subst w'.
  destruct (init_forward_metadata_effect fb w) as (extra & Hh & Hs).
  assert (Hself :
            cuda_graph_start_loc (self (fst (init_forward_metadata fb w)))
            = cuda_graph_start_loc (self w)
            /\ cuda_graph_attn_logits (self (fst (init_forward_metadata fb w)))
               = cuda_graph_attn_logits (self w)
            /\ cuda_graph_max_seq_len (self (fst (init_forward_metadata fb w)))
               = cuda_graph_max_seq_len (self w)
            /\ num_head (self (fst (init_forward_metadata fb w)))
               = num_head (self w)
            /\ reduce_dtype (self (fst (init_forward_metadata fb w)))
               = reduce_dtype (self w)).
  { destruct (snd (init_forward_metadata fb w)).
    - destruct Hs as [md ->]. repeat split.
    - rewrite Hs. repeat split. }
  destruct Hself as (S1 & S2 & S3 & S4 & S5).
  unfold cuda_graph_table, cuda_graph_accumulator, lookup_int, lookup_float
    in *.
  rewrite S1, S2, Hh.
  destruct (cuda_graph_start_loc (self w)) as [r1|]; [|discriminate].
  destruct (cuda_graph_attn_logits (self w)) as [r2|]; [|discriminate].
  destruct (heap w !! r1) as [o1|] eqn:E1; [|discriminate].
  destruct (heap w !! r2) as [o2|] eqn:E2; [|discriminate].
  rewrite (lookup_app_l_Some _ _ _ _ E1), (lookup_app_l_Some _ _ _ _ E2).
  repeat split; assumption.
Qed.

(** A decode build on the replayed capture state for two requests. *)
Lemma build_leaves_capture_state_witness :
  let w' := fst (init_forward_metadata (Examples.decode_batch [4; 1; 7])
                   Examples.replayed_world) in
  cuda_graph_table w' = Some (Examples.lens [0; 7])
  /\ cuda_graph_accumulator w'
     = Some (fresh_accumulator Examples.world 1%nat 8 (2 * 4096) float16)
  /\ cuda_graph_start_loc (self w')
     = cuda_graph_start_loc (self Examples.replayed_world)
  /\ cuda_graph_attn_logits (self w')
     = cuda_graph_attn_logits (self Examples.replayed_world)
  /\ cuda_graph_max_seq_len (self w')
     = cuda_graph_max_seq_len (self Examples.replayed_world)
  /\ num_head (self w') = num_head (self Examples.replayed_world)
  /\ reduce_dtype (self w') = reduce_dtype (self Examples.replayed_world).
Proof.
  apply (build_leaves_capture_state (Examples.decode_batch [4; 1; 7])
           Examples.replayed_world); reflexivity.
Defined.

(** ** Array sizes and indices in the builds *)

Section BuildErrors.



(** A single prefix length is paired with every sequence length. *)
Lemma broadcast2_single xs y :
  broadcast2 xs [y] = Ok (map (fun x => (x, y)) xs).
Proof.
  unfold broadcast2. destruct xs as [|a [|b r]]; reflexivity.
Qed.

Lemma broadcast2_mismatch xs ys :
  (2 <= length xs)%nat -> length ys <> length xs -> length ys <> 1%nat ->
  broadcast2 xs ys = Raise RuntimeError.
Proof.
  intros H2 Hne H1. unfold broadcast2.
  destruct (Nat.eqb_spec (length xs) (length ys)) as [E|_]; [congruence|].
  destruct xs as [|a [|b r]]; cbn in H2; try lia.
  destruct ys as [|c [|d r']]; cbn in H1; try reflexivity. congruence.
Qed.

End BuildErrors.

(** X5.  In extend mode, sequence lengths and prefix lengths of different
    sizes (at least two sequence lengths, and not exactly one prefix
    length) make the build raise [RuntimeError]; nothing is stored or
    allocated. *)
Theorem extend_size_mismatch_raises w fb t p :
  forward_mode fb = EXTEND ->
  effective_seq_lens fb = Ok t ->
  effective_prefix_lens fb = Ok p ->
  (2 <= length (data t))%nat ->
  length (data p) <> length (data t) ->
  length (data p) <> 1%nat ->
  init_forward_metadata fb w = (w, Raise RuntimeError).
Proof.
  intros Hm Ht Hp H2 Hne H1.
  rewrite (init_forward_metadata_extend _ _ _ Hm Ht), Hp.
  unfold extend_len, shape0, torch_sub.
  destruct (Z.ltb_spec 0 (Z.of_nat (length (data t)))) as [_|?]; [|lia].
  rewrite broadcast2_mismatch by assumption. reflexivity.
Qed.

(** Three sequence lengths against two prefix lengths. *)
Lemma extend_size_mismatch_raises_witness :
  init_forward_metadata (Examples.extend_batch [10; 6; 3] [8; 6]) Examples.world
  = (Examples.world, Raise RuntimeError).
Proof.
  apply (extend_size_mismatch_raises Examples.world
           (Examples.extend_batch [10; 6; 3] [8; 6])
           (Examples.lens [10; 6; 3]) (Examples.lens [8; 6]));
    try reflexivity; cbn; lia.
Defined.

(** X6.  In extend mode a prefix array of exactly one element is accepted
    for a batch of any size: it is broadcast, and the stored
    [max_extend_len] is the largest [L[i] - P[0]] (each difference being
    representable in the arrays' dtype). *)
Theorem extend_single_prefix_broadcast w fb t p q0 :
  forward_mode fb = EXTEND ->
  effective_seq_lens fb = Ok t ->
  effective_prefix_lens fb = Ok p ->
  data p = [q0] ->
  data t <> [] ->
  (forall l, l ∈ data t -> in_range (promote (dtype t) (dtype p)) (l - q0)) ->
  exists w' m,
    init_forward_metadata fb w = (w', Ok tt)
    /\ forward_metadata (self w') = Some (None, None, None, Some m)
    /\ (exists l, l ∈ data t /\ m = l - q0)
    /\ (forall l, l ∈ data t -> l - q0 <= m).
Proof.
  intros Hm Ht Hp Hq Hne Hfit.
  rewrite (init_forward_metadata_extend _ _ _ Hm Ht), Hp.
  unfold extend_len, shape0, torch_sub.
  destruct (Z.ltb_spec 0 (Z.of_nat (length (data t)))) as [_|Hlen].
  2: { destruct (data t); [congruence|cbn in Hlen; lia]. }
  rewrite Hq, broadcast2_single. cbn [res_bind].
  rewrite map_map. cbn [fst snd].
  assert (Hexact : map (fun x => wrap (promote (dtype t) (dtype p)) (x - q0))
                     (data t)
                   = map (fun x => x - q0) (data t)).
  { apply map_ext_in. intros l Hl. apply wrap_id, Hfit.
    apply list_elem_of_In. exact Hl. }
  rewrite Hexact.
  destruct (torch_max_item
              {| dtype := promote (dtype t) (dtype p);
                 data := map (fun x => x - q0) (data t) |}) as [m|e] eqn:EM.
  - apply torch_max_item_spec in EM as [Hin Hub]. cbn [data] in Hin, Hub.
    eexists _, m. split; [reflexivity|]. split; [reflexivity|]. split.
    + apply list_elem_of_fmap in Hin as (l & -> & Hl). exists l.
      split; [assumption|reflexivity].
    + intros l Hl. apply Hub. apply list_elem_of_fmap. exists l.
      split; [reflexivity|assumption].
  - unfold torch_max_item in EM. cbn [data] in EM.
    destruct (data t); [congruence|discriminate EM].
Qed.

(** Lengths [10, 6, 3] against the single prefix length [2]. *)
Lemma extend_single_prefix_broadcast_witness :
  exists w' m,
    init_forward_metadata (Examples.extend_batch [10; 6; 3] [2]) Examples.world
    = (w', Ok tt)
    /\ forward_metadata (self w') = Some (None, None, None, Some m)
    /\ (exists l, l ∈ [10; 6; 3] /\ m = l - 2)
    /\ (forall l, l ∈ [10; 6; 3] -> l - 2 <= m).
Proof.
  apply (extend_single_prefix_broadcast Examples.world
           (Examples.extend_batch [10; 6; 3] [2])
           (Examples.lens [10; 6; 3]) (Examples.lens [2]) 2);
    try reflexivity; [discriminate|].
  intros l Hl. cbn in Hl.
  repeat match goal with
         | H : _ ∈ _ :: _ |- _ => apply elem_of_cons in H as [->|H]
         | H : _ ∈ [] |- _ => inversion H
         end; vm_compute; split; discriminate.
Defined.



(** ** Capture and replay over time *)

Section CaptureReplay.

Lemma capture_state_set_metadata max_bs w md :
  capture_state max_bs w ->
  capture_state max_bs (with_self w (set_forward_metadata md (self w))).
Proof.
  intros (r_sl & r_al & tbl & acc & H1 & H2 & H3 & H4 & H5 & H6).
  exists r_sl, r_al, tbl, acc. repeat split; assumption.
Qed.

(** On a committed capture state the capture succeeds and stores the two
    capture locations. *)
Lemma capture_on_state max_bs w bs req sl :
  capture_state max_bs w ->
  exists r_sl r_al,
    cuda_graph_start_loc (self w) = Some r_sl
    /\ cuda_graph_attn_logits (self w) = Some r_al
    /\ (r_sl < length (heap w))%nat
    /\ init_forward_metadata_capture_cuda_graph bs req sl w
       = (with_self w (set_forward_metadata
                         (Some r_sl, Some r_al,
                          Some (cuda_graph_max_seq_len (self w)), None)
                         (self w)), Ok tt).
Proof.
  intros (r_sl & r_al & tbl & acc & H1 & H2 & H3 & H4 & H5 & H6).
  exists r_sl, r_al. rewrite capture_run, H1, H2.
  repeat split. eapply lookup_lt_Some. eassumption.
Qed.

Lemma Zsum_replicate n x : Zsum (replicate n x) = Z.of_nat n * x.
Proof.
  unfold Zsum. induction n as [|n IH]; [reflexivity|].
  cbn [replicate foldr]. rewrite IH. lia.
Qed.

(** Lengths between 0 and [C]: the first [i] of them sum to at most
    [i * C]. *)
Lemma Zsum_take_bound C xs :
  0 <= C ->
  Forall (fun x => 0 <= x <= C) xs ->
  forall i, 0 <= Zsum (take i xs) <= Z.of_nat i * C.
Proof.
  intros HC H. unfold Zsum.
  induction H as [|x xs Hx _ IH]; intros [|i]; cbn [take foldr]; try lia.
  specialize (IH i). lia.
Qed.

End CaptureReplay.

(** X8.  Until [init_cuda_graph_state] has been called, whatever else was
    called since [__init__], both the capture and the replay raise
    [AttributeError] and change nothing. *)
Theorem capture_state_missing args mr b h u calls bs req seq_lens :
  __init__ args mr = Ok b ->
  forallb (fun c => negb (commits_capture_state c)) calls = true ->
  let w := run_calls calls {| heap := h; uninit := u; self := b |} in
  init_forward_metadata_capture_cuda_graph bs req seq_lens w
  = (w, Raise AttributeError)
  /\ init_forward_metadata_replay_cuda_graph bs req seq_lens w
     = (w, Raise AttributeError).
Proof.
  intros Hinit Hcalls w.
  assert (Hb : cuda_graph_start_loc b = None).
  { unfold __init__, res_bind in Hinit.
    destruct (if enable_mla_dp args then _ else _); [|discriminate].
    injection Hinit as <-. reflexivity. }
  destruct (run_calls_attrs calls {| heap := h; uninit := u; self := b |}
              Hcalls) as [A1 _].
  fold w in A1. cbn [self] in A1. rewrite Hb in A1.
  split.
  - rewrite capture_run, A1. reflexivity.
  - apply replay_no_state. exact A1.
Qed.

(** A decode build and a decode step on the fresh backend, then capture
    and replay. *)
Lemma capture_state_missing_witness :
  let w := run_calls
             [CallInitForwardMetadata (Examples.decode_batch [4; 1; 7]);
              CallForwardDecode (Examples.decode_batch [4; 1; 7])]
             Examples.world in
  init_forward_metadata_capture_cuda_graph
    3 (Examples.lens [0; 1; 2]) (Examples.lens [4; 1; 7]) w
  = (w, Raise AttributeError)
  /\ init_forward_metadata_replay_cuda_graph
       3 (Examples.lens [0; 1; 2]) (Examples.lens [4; 1; 7]) w
     = (w, Raise AttributeError).
Proof.
  apply (capture_state_missing Examples.server_args Examples.runner
           Examples.backend [] (fun l _ => Z.of_nat l)
           [CallInitForwardMetadata (Examples.decode_batch [4; 1; 7]);
            CallForwardDecode (Examples.decode_batch [4; 1; 7])]);
    reflexivity.
Defined.

(** X9.  The metadata stored by a capture names the capture table itself:
    after any later replay, which leaves [forward_metadata] as it is, the
    [start_loc] read through the stored metadata is the table the replay
    has just written; for a batch size within the capacity its first [bs]
    entries are the offsets of the replayed lengths. *)
Theorem captured_metadata_sees_replay max_bs w bs0 req0 seq_lens0 bs req L :
  capture_state max_bs w ->
  exists w1 w2 res tbl,
    init_forward_metadata_capture_cuda_graph bs0 req0 seq_lens0 w = (w1, Ok tt)
    /\ init_forward_metadata_replay_cuda_graph bs req L w1 = (w2, res)
    /\ forward_metadata (self w2) = forward_metadata (self w1)
    /\ cuda_graph_table w2 = Some tbl
    /\ metadata_start_loc w2 = Some tbl
    /\ (1 <= bs <= max_bs -> bs - 1 <= shape0 L ->
          res = Ok tt
          /\ take (Z.to_nat bs) (data tbl)
             = offset_table int32 (data L) (Z.to_nat bs)).
Proof.
  intros Hcs.
  destruct (capture_on_state max_bs w bs0 req0 seq_lens0 Hcs)
    as (r_sl & r_al & Hsl & Hal & Hlt & Hcap).
  pose proof (capture_state_set_metadata max_bs w
                (Some r_sl, Some r_al,
                 Some (cuda_graph_max_seq_len (self w)), None) Hcs) as Hcs1.
  destruct (replay_effect max_bs _ bs req L Hcs1)
    as (r & tbl' & res & Hr & Hlt' & Hrun & Hd & Hn & Hok & _).
  cbn [with_self self heap cuda_graph_start_loc set_forward_metadata] in Hr, Hlt'.
  assert (r = r_sl) as -> by congruence.
  eexists _, _, res, tbl'. split; [exact Hcap|]. split; [exact Hrun|].
  split; [reflexivity|].
  assert (Hlook : <[r_sl:=IntObj tbl']> (heap w) !! r_sl = Some (IntObj tbl'))
    by (apply list_lookup_insert_eq; assumption).
  split.
  { unfold cuda_graph_table, lookup_int, with_heap, with_self.
    cbn [self heap set_forward_metadata cuda_graph_start_loc].
    rewrite Hsl, Hlook. reflexivity. }
  split.
  { unfold metadata_start_loc, lookup_int, with_heap, with_self.
    cbn [self heap set_forward_metadata forward_metadata].
    rewrite Hlook. reflexivity. }
  intros Hbs HL. destruct (Hok Hbs HL) as [-> Hdata].
  split; [reflexivity|]. rewrite Hdata.
  apply take_app_length'. symmetry. apply length_offset_table.
Qed.

(** Capture on a table for four, then the replay of [4, 1, 7]. *)
Lemma captured_metadata_sees_replay_witness :
  exists w1 w2 tbl,
    init_forward_metadata_capture_cuda_graph
      4 (Examples.lens [0; 1; 2; 3]) (Examples.lens [1; 1; 1; 1])
      (Examples.capture_world 4) = (w1, Ok tt)
    /\ init_forward_metadata_replay_cuda_graph
         3 (Examples.lens [0; 1; 2]) (Examples.lens [4; 1; 7; 1]) w1
       = (w2, Ok tt)
    /\ forward_metadata (self w2) = forward_metadata (self w1)
    /\ cuda_graph_table w2 = Some tbl
    /\ metadata_start_loc w2 = Some tbl
    /\ take (Z.to_nat 3) (data tbl)
       = offset_table int32 [4; 1; 7; 1] (Z.to_nat 3).
Proof.
  destruct (captured_metadata_sees_replay 4 (Examples.capture_world 4)
              4 (Examples.lens [0; 1; 2; 3]) (Examples.lens [1; 1; 1; 1])
              3 (Examples.lens [0; 1; 2]) (Examples.lens [4; 1; 7; 1])
              ExampleStates.capture_world_4)
    as (w1 & w2 & res & tbl & H1 & H2 & H3 & H4 & H5 & H6).
  destruct H6 as [-> H7]; [lia | vm_compute; discriminate |].
  exists w1, w2, tbl.
  split; [exact H1|]. split; [exact H2|]. split; [exact H3|].
  split; [exact H4|]. split; [exact H5|]. exact H7.
Defined.

(** X10.  A second [init_cuda_graph_state] allocates a new table and does
    not touch [forward_metadata]: metadata captured before it keeps naming
    the old table, which later replays no longer write.  The [start_loc]
    read through that metadata stays what it was at the capture. *)
Theorem recommit_strands_captured_metadata
    max_bs w bs0 req0 seq_lens0 max_bs' w1 w2 bs req L :
  capture_state max_bs w ->
  init_forward_metadata_capture_cuda_graph bs0 req0 seq_lens0 w = (w1, Ok tt) ->
  init_cuda_graph_state max_bs' w1 = (w2, Ok tt) ->
  let w3 := fst (init_forward_metadata_replay_cuda_graph bs req L w2) in
  forward_metadata (self w3) = forward_metadata (self w1)
  /\ metadata_start_loc w3 = cuda_graph_table w
  /\ metadata_start_loc w1 = cuda_graph_table w
  /\ cuda_graph_start_loc (self w3) = Some (length (heap w))
  /\ cuda_graph_start_loc (self w) <> Some (length (heap w)).
Proof.
  intros Hcs Hcap Hcommit w3.
  destruct (capture_on_state max_bs w bs0 req0 seq_lens0 Hcs)
    as (r_sl & r_al & Hsl & Hal & Hlt & Hcap').
  rewrite Hcap' in Hcap. injection Hcap as <-.
  destruct Hcs as (r & r_al' & tbl & acc & H1 & H2 & H3 & H4 & H5 & H6).
  assert (r = r_sl) as -> by congruence.
  destruct (init_cuda_graph_state_commits _ _ _ Hcommit)
    as (Hcs2 & Hsl2 & _ & _ & _ & _ & Hpre).
  cbn [with_self heap] in Hsl2, Hpre.
  assert (Hmd2 : forward_metadata (self w2)
                 = Some (Some r_sl, Some r_al,
                         Some (cuda_graph_max_seq_len (self w)), None)).
  { rewrite init_cuda_graph_state_run in Hcommit. cbv zeta in Hcommit.
    destruct (max_bs' <? 0); [discriminate|].
    destruct (_ || _); [discriminate|].
    injection Hcommit as <-. reflexivity. }
  destruct (replay_effect max_bs' w2 bs req L Hcs2)
    as (r2 & tbl' & res & Hr2 & Hlt2 & Hrun & _).
  assert (r2 = length (heap w)) as -> by congruence.
  subst w3. rewrite Hrun. cbn [fst]. unfold with_heap. cbn [self heap].
  assert (Hold : heap w2 !! r_sl = Some (IntObj tbl)).
  { rewrite <- (take_drop (length (heap w)) (heap w2)), Hpre.
    apply lookup_app_l_Some. exact H3. }
  split; [rewrite Hmd2; reflexivity|].
  split.
  { unfold metadata_start_loc, cuda_graph_table, lookup_int.
    cbn [self heap]. rewrite Hmd2, Hsl. unfold loc in *.
    rewrite list_lookup_insert_ne by lia. rewrite Hold, H3. reflexivity. }
  split.
  { unfold metadata_start_loc, cuda_graph_table, lookup_int, with_self.
    cbn [self heap set_forward_metadata forward_metadata]. rewrite Hsl.
    reflexivity. }
  split; [exact Hsl2|].
  rewrite Hsl. intros [= E]. lia.
Qed.

(** Capture on the replayed table for two, a second commitment for three,
    and a replay of three requests: the captured metadata still reads
    [0, 7]. *)
Lemma recommit_strands_captured_metadata_witness :
  let w1 := fst (init_forward_metadata_capture_cuda_graph
                   2 (Examples.lens [0; 1]) (Examples.lens [7; 7])
                   Examples.replayed_world) in
  let w2 := fst (init_cuda_graph_state 3 w1) in
  let w3 := fst (init_forward_metadata_replay_cuda_graph
                   3 (Examples.lens [0; 1; 2]) (Examples.lens [4; 1; 7]) w2) in
  metadata_start_loc w3 = Some (Examples.lens [0; 7])
  /\ cuda_graph_table w3 = Some (Examples.lens [0; 4; 5]).
Proof.
  split; [|reflexivity].
  destruct (recommit_strands_captured_metadata 2 Examples.replayed_world
              2 (Examples.lens [0; 1]) (Examples.lens [7; 7]) 3
              (fst (init_forward_metadata_capture_cuda_graph
                      2 (Examples.lens [0; 1]) (Examples.lens [7; 7])
                      Examples.replayed_world))
              (fst (init_cuda_graph_state 3
                      (fst (init_forward_metadata_capture_cuda_graph
                              2 (Examples.lens [0; 1]) (Examples.lens [7; 7])
                              Examples.replayed_world))))
              3 (Examples.lens [0; 1; 2]) (Examples.lens [4; 1; 7])
              ExampleStates.replayed_world_state eq_refl eq_refl)
    as (_ & H & _).
  exact H.
Defined.

(** X11.  What a replay leaves in the table, and whether it raises,
    depends on the batch size, the lengths and the size of the table
    only: nothing of an earlier replay survives. *)
Theorem replay_history_independent max_bs w1 w2 bs req L :
  capture_state max_bs w1 ->
  capture_state max_bs w2 ->
  snd (init_forward_metadata_replay_cuda_graph bs req L w1)
  = snd (init_forward_metadata_replay_cuda_graph bs req L w2)
  /\ cuda_graph_table (fst (init_forward_metadata_replay_cuda_graph bs req L w1))
     = cuda_graph_table (fst (init_forward_metadata_replay_cuda_graph bs req L w2)).
Proof.
  intros (r1 & a1 & t1 & c1 & Hs1 & _ & Ht1 & _ & Hd1 & Hn1)
         (r2 & a2 & t2 & c2 & Hs2 & _ & Ht2 & _ & Hd2 & Hn2).
  rewrite (replay_run _ _ _ _ _ _ Hs1 Ht1), (replay_run _ _ _ _ _ _ Hs2 Ht2).
  cbv zeta. unfold shape0 in Hn1, Hn2.
  assert (Hlen : length (data t1) = length (data t2)) by lia.
  rewrite Hd1, Hd2, Hlen.
  assert (L1 : (r1 < length (heap w1))%nat) by (eapply lookup_lt_Some; eassumption).
  assert (L2 : (r2 < length (heap w2))%nat) by (eapply lookup_lt_Some; eassumption).
  destruct (assign_slice _ _ _ _ _); cbn [fst snd];
    (split; [reflexivity|]);
    unfold cuda_graph_table, lookup_int, with_heap; cbn [self heap];
    rewrite Hs1, Hs2, !list_lookup_insert_eq by assumption; reflexivity.
Qed.

(** The fresh table for two and the table left by a replay over
    [7, 7]. *)
Lemma replay_history_independent_witness :
  cuda_graph_table
    (fst (init_forward_metadata_replay_cuda_graph
            1 (Examples.lens [0]) (Examples.lens [3]) (Examples.capture_world 2)))
  = cuda_graph_table
      (fst (init_forward_metadata_replay_cuda_graph
              1 (Examples.lens [0]) (Examples.lens [3]) Examples.replayed_world)).
Proof.
  exact (proj2 (replay_history_independent 2 (Examples.capture_world 2)
                  Examples.replayed_world 1 (Examples.lens [0])
                  (Examples.lens [3]) ExampleStates.capture_world_2
                  ExampleStates.replayed_world_state)).
Defined.

(** X12.  Padding.  When the lengths of [raw] requests are followed by
    [get_cuda_graph_seq_len_fill_value()] in each unused slot up to a
    batch size [bs] within the capacity, the replay gives every real
    request the offset it has without padding, and gives the [j]-th padded
    slot the offset [sum(L) + j]: each padded slot is a span of one token
    directly behind the real ones. *)
Theorem replay_padding max_bs w bs req L seq_lens :
  capture_state max_bs w ->
  1 <= bs <= max_bs ->
  Z.of_nat (length L) <= bs ->
  data seq_lens
  = L ++ replicate (Z.to_nat bs - length L) get_cuda_graph_seq_len_fill_value ->
  exists w' tbl,
    init_forward_metadata_replay_cuda_graph bs req seq_lens w = (w', Ok tt)
    /\ cuda_graph_table w' = Some tbl
    /\ (forall i, (i <= length L)%nat -> Z.of_nat i < bs ->
          data tbl !! i = Some (wrap int32 (Zsum (take i L))))
    /\ (forall j, Z.of_nat (length L + j) < bs ->
          data tbl !! (length L + j)%nat
          = Some (wrap int32 (Zsum L + Z.of_nat j))).
Proof.
  intros Hcs Hbs Hraw Hdata.
  destruct (replay_effect max_bs w bs req seq_lens Hcs)
    as (r_sl & tbl' & res & Hr & Hlt & Hrun & Hd & Hn & Hok & _).
  assert (Hlen : bs - 1 <= shape0 seq_lens).
  { unfold shape0. rewrite Hdata, length_app, length_replicate. lia. }
  destruct (Hok Hbs Hlen) as [-> Htbl].
  eexists _, tbl'. split; [exact Hrun|].
  split.
  { unfold cuda_graph_table, lookup_int, with_heap. cbn [self heap].
    rewrite Hr, list_lookup_insert_eq by assumption. reflexivity. }
  rewrite Htbl, Hdata. split.
  - intros i Hi Hib.
    rewrite lookup_app_l by (rewrite length_offset_table; lia).
    rewrite offset_table_lookup by lia.
    rewrite take_app_le by assumption. reflexivity.
  - intros j Hj.
    rewrite lookup_app_l by (rewrite length_offset_table; lia).
    rewrite offset_table_lookup by lia.
    rewrite take_app_add', Zsum_app by reflexivity.
    rewrite take_replicate, Zsum_replicate.
    unfold get_cuda_graph_seq_len_fill_value.
    do 2 f_equal. lia.
Qed.

(** Two real requests, [4] and [1], padded to a batch of four. *)
Lemma replay_padding_witness :
  exists w' tbl,
    init_forward_metadata_replay_cuda_graph
      4 (Examples.lens [0; 1; 0; 0]) (Examples.lens [4; 1; 1; 1])
      (Examples.capture_world 4) = (w', Ok tt)
    /\ cuda_graph_table w' = Some tbl
    /\ (forall i, (i <= 2)%nat -> Z.of_nat i < 4 ->
          data tbl !! i = Some (wrap int32 (Zsum (take i [4; 1]))))
    /\ (forall j, Z.of_nat (2 + j) < 4 ->
          data tbl !! (2 + j)%nat = Some (wrap int32 (Zsum [4; 1] + Z.of_nat j))).
Proof.
  apply (replay_padding 4 (Examples.capture_world 4) 4
           (Examples.lens [0; 1; 0; 0]) [4; 1] (Examples.lens [4; 1; 1; 1])).
  - exact ExampleStates.capture_world_4.
  - lia.
  - cbn. lia.
  - reflexivity.
Defined.

(** X13.  Capacity of the capture accumulator.  On a capture state for
    [max_bs] requests whose accumulator has [max_bs * C] columns (as
    [init_cuda_graph_state] allocates it, [C] being the context length),
    with [max_bs * C] an int32, a replay of [bs <= max_bs] requests whose
    lengths lie between 0 and [C] leaves every request's span inside the
    accumulator. *)
Theorem replay_spans_in_capture_accumulator max_bs w C acc bs req L :
  capture_state max_bs w ->
  cuda_graph_accumulator w = Some acc ->
  cols acc = max_bs * C ->
  max_bs * C <= max_value int32 ->
  1 <= bs <= max_bs ->
  bs <= shape0 L ->
  Forall (fun x => 0 <= x <= C) (data L) ->
  exists w' tbl,
    init_forward_metadata_replay_cuda_graph bs req L w = (w', Ok tt)
    /\ cuda_graph_table w' = Some tbl
    /\ cuda_graph_accumulator w' = Some acc
    /\ (forall i a x, Z.of_nat i < bs ->
          data tbl !! i = Some a -> data L !! i = Some x ->
          0 <= a /\ a + x <= cols acc).
Proof.
  intros Hcs Hacc Hcols Hfit Hbs HL Hrange.
  destruct (replay_effect max_bs w bs req L Hcs)
    as (r_sl & tbl' & res & Hr & Hlt & Hrun & Hd & Hn & Hok & _).
  destruct (Hok Hbs ltac:(lia)) as [-> Htbl].
  destruct Hcs as (r & r_al & tbl & acc0 & H1 & H2 & H3 & H4 & _ & _).
  assert (r = r_sl) as -> by congruence.
  assert (Hne : r_al <> r_sl) by (intros ->; congruence).
  assert (HC : 0 <= C).
  { unfold shape0 in HL. destruct (data L) as [|x xs]; [cbn in HL; lia|].
    inversion Hrange; subst. lia. }
  eexists _, tbl'. split; [exact Hrun|].
  split.
  { unfold cuda_graph_table, lookup_int, with_heap. cbn [self heap].
    rewrite Hr, list_lookup_insert_eq by assumption. reflexivity. }
  split.
  { revert Hacc. unfold cuda_graph_accumulator, lookup_float, with_heap.
    cbn [self heap]. rewrite H2, list_lookup_insert_ne by congruence.
    trivial. }
  intros i a x Hi Ha Hx. rewrite Htbl in Ha.
  rewrite lookup_app_l in Ha by (rewrite length_offset_table; lia).
  rewrite offset_table_lookup in Ha by lia. injection Ha as <-.
  pose proof (Zsum_take_bound C (data L) HC Hrange i) as Bi.
  pose proof (Zsum_take_bound C (data L) HC Hrange (S i)) as BS.
  rewrite (Zsum_take_S _ _ _ Hx) in BS.
  assert (Hle : Z.of_nat (S i) * C <= max_bs * C)
    by (apply Z.mul_le_mono_nonneg_r; lia).
  assert (Hle' : Z.of_nat i * C <= Z.of_nat (S i) * C)
    by (apply Z.mul_le_mono_nonneg_r; lia).
  rewrite wrap_id
    by (unfold in_range, min_value, max_value in *; cbn [bits] in *; lia).
  rewrite Hcols. lia.
Qed.

(** Three requests of at most 4096 tokens on the capture state for
    four. *)
Lemma replay_spans_in_capture_accumulator_witness :
  exists w' tbl,
    init_forward_metadata_replay_cuda_graph
      3 (Examples.lens [0; 1; 2]) (Examples.lens [4096; 1; 7])
      (Examples.capture_world 4) = (w', Ok tt)
    /\ cuda_graph_table w' = Some tbl
    /\ cuda_graph_accumulator w'
       = Some (fresh_accumulator Examples.world 1%nat 8 (4 * 4096) float16)
    /\ (forall i a x, Z.of_nat i < 3 ->
          data tbl !! i = Some a -> [4096; 1; 7] !! i = Some x ->
          0 <= a /\ a + x <= 4 * 4096).
Proof.
  apply (replay_spans_in_capture_accumulator 4 (Examples.capture_world 4)
           4096 (fresh_accumulator Examples.world 1%nat 8 (4 * 4096) float16)
           3 (Examples.lens [0; 1; 2]) (Examples.lens [4096; 1; 7])).
  - exact ExampleStates.capture_world_4.
  - reflexivity.
  - reflexivity.
  - vm_compute. discriminate.
  - lia.
  - vm_compute. discriminate.
  - cbn. repeat constructor; lia.
Defined.

(** ** The constructor *)

(** X14.  [__init__].  Without [enable_mla_dp] the head count is the
    attention-head count divided by the tensor-parallel degree, rounded
    down: a zero degree raises [ZeroDivisionError], and for a positive
    degree [tp_size * num_head <= heads < tp_size * (num_head + 1)], so
    that a non-negative head count gives a non-negative [num_head].  With
    [enable_mla_dp] every head is kept.  A new backend has no metadata and
    no capture state, and its capture [max_seq_len] is the context
    length. *)
Theorem init_num_head args mr :
  (enable_mla_dp args = false -> tp_size mr = 0 ->
     __init__ args mr = Raise ZeroDivisionError)
  /\ (enable_mla_dp args = true \/ tp_size mr <> 0 ->
      exists b,
        __init__ args mr = Ok b
        /\ forward_metadata b = None
        /\ cuda_graph_start_loc b = None
        /\ cuda_graph_attn_logits b = None
        /\ cuda_graph_max_seq_len b = context_len (model_config mr)
        /\ (enable_mla_dp args = true ->
            num_head b = num_attention_heads (model_config mr))
        /\ (enable_mla_dp args = false -> 0 < tp_size mr ->
            tp_size mr * num_head b <= num_attention_heads (model_config mr)
            /\ num_attention_heads (model_config mr)
               < tp_size mr * (num_head b + 1)
            /\ (0 <= num_attention_heads (model_config mr) -> 0 <= num_head b))).
Proof.
  unfold __init__. split.
  - intros -> ->. reflexivity.
  - intros H. destruct (enable_mla_dp args) eqn:Ed.
    + eexists. split; [reflexivity|]. cbn.
      repeat split; try reflexivity; discriminate.
    + destruct H as [H|H]; [discriminate|].
      destruct (Z.eqb_spec (tp_size mr) 0) as [?|_]; [contradiction|].
      eexists. split; [reflexivity|]. cbn.
      do 4 (split; [reflexivity|]). split; [discriminate|].
      intros _ Hpos.
      pose proof (Z.mul_div_le (num_attention_heads (model_config mr))
                    (tp_size mr) Hpos).
      pose proof (Z.mul_succ_div_gt (num_attention_heads (model_config mr))
                    (tp_size mr) Hpos).
      split; [assumption|]. split; [lia|].
      intros Hh. apply Z.div_pos; assumption.
Qed.

(** ** The forward calls and the stored metadata *)




(** ** The forward calls with their output and collaborators *)

Section Traced.

Lemma numel_pair a b : numel [a; b] = a * b.
Proof. unfold numel. cbn [foldr]. lia. Qed.


(** [view(-1, H, D)] of [T0 * (H * D)] elements. *)
Lemma infer_size_heads H D n T0 :
  0 < H -> 0 < D -> n = T0 * (H * D) ->
  infer_size [-1; H; D] n = Ok [T0; H; D].
Proof.
  intros HH HD ->. unfold infer_size. cbn [infer_scan].
  change (-1 =? -1) with true. cbv iota.
  destruct (Z.eqb_spec H (-1)) as [?|_]; [lia|].
  destruct (Z.leb_spec 0 H) as [_|?]; [|lia].
  destruct (Z.eqb_spec D (-1)) as [?|_]; [lia|].
  destruct (Z.leb_spec 0 D) as [_|?]; [|lia].
  cbn [res_bind fst snd].
  rewrite Z.mul_1_l, Z.mod_mul by lia.
  destruct (Z.ltb_spec 0 (H * D)) as [_|?]; [|lia].
  change (0 =? 0) with true. rewrite orb_true_r.
  destruct (Z.eqb_spec (H * D) 0) as [?|_]; [lia|].
  rewrite Z.div_mul by lia. reflexivity.
Qed.

(** [reshape(-1, P)] of a number of elements that [P] does not divide. *)
Lemma infer_size_rows_error P n :
  0 < P -> n mod P <> 0 -> infer_size [-1; P] n = Raise RuntimeError.
Proof.
  intros HP Hmod. unfold infer_size. cbn [infer_scan].
  change (-1 =? -1) with true. cbv iota.
  destruct (Z.eqb_spec P (-1)) as [?|_]; [lia|].
  destruct (Z.leb_spec 0 P) as [_|?]; [|lia].
  cbn [res_bind fst snd]. rewrite Z.mul_1_l.
  destruct (Z.eqb_spec n P) as [->|_].
  { rewrite Z.mod_same in Hmod by lia. congruence. }
  destruct (Z.eqb_spec (n mod P) 0) as [?|_]; [congruence|].
  rewrite andb_false_r. reflexivity.
Qed.

(** The output for a two-dimensional query of [T0] rows has [T0] rows and
    [H * Dv] columns, whether or not the head dimensions agree. *)
Lemma new_output_rows layer T0 :
  0 <= tp_q_head_num layer * v_head_dim layer ->
  new_output [T0; tp_q_head_num layer * qk_head_dim layer] layer
  = Ok [T0; tp_q_head_num layer * v_head_dim layer].
Proof.
  intros Hc. unfold new_output.
  destruct (Z.eqb_spec (qk_head_dim layer) (v_head_dim layer)) as [E|_];
    cbn [negb].
  - rewrite E. reflexivity.
  - destruct (Z.ltb_spec (tp_q_head_num layer * v_head_dim layer) 0);
      [lia|reflexivity].
Qed.

(** Without stored metadata [forward_extend] raises on every path. *)
Lemma forward_extend_no_metadata fb w :
  forward_metadata (self w) = None ->
  exists w' e, forward_extend fb w = (w', Raise e).
Proof.
  intros Hmd. destruct (local_seq_indices fb) as [idx|] eqn:Hi.
  - destruct (getitem_index (seq_lens fb) idx) as [sl|e] eqn:Hs.
    2: { exists w, e. unfold forward_extend, bind, lift. rewrite Hi, Hs.
         reflexivity. }
    destruct (getitem_index (extend_seq_lens fb) idx) as [el|e] eqn:He.
    2: { exists w, e. unfold forward_extend, bind, lift. rewrite Hi, Hs, He.
         reflexivity. }
    rewrite (forward_extend_sliced _ _ _ _ _ Hi Hs He), Hmd.
    eexists _, _. reflexivity.
  - rewrite (forward_extend_plain _ _ Hi), Hmd. eexists _, _. reflexivity.
Qed.


End Traced.



(** X18.  [forward_extend] on a contiguous query of shape
    [T0 x (H * Dqk)], when its length arguments are computed without an
    exception: it returns an output of [T0] rows and [H * Dv] columns
    after one cache write, the two buffer reads and one kernel call on
    the views [T0 x H x Dqk] and [T0 x H x Dv] with those length
    arguments. *)
Theorem forward_extend_traced_ok layer fb w tr T0 w' args :
  0 < tp_q_head_num layer ->
  0 < qk_head_dim layer ->
  0 < v_head_dim layer ->
  forward_extend fb w = (w', Ok args) ->
  let q := [T0; tp_q_head_num layer * qk_head_dim layer] in
  forward_extend_traced q
    (infer_size [-1; tp_q_head_num layer; qk_head_dim layer] (numel q))
    (infer_size [-1; tp_q_head_num layer; v_head_dim layer] (numel q))
    layer fb w tr
  = (w',
     tr ++ [SetKvBuffer (layer_id layer);
            GetKeyBuffer (layer_id layer);
            GetValueBuffer (layer_id layer);
            ExtendAttentionFwd
              [T0; tp_q_head_num layer; qk_head_dim layer]
              [T0; tp_q_head_num layer; v_head_dim layer] args],
     Ok [T0; tp_q_head_num layer * v_head_dim layer]).
Proof.
  intros HH HD HV Hargs q. subst q.
  unfold forward_extend_traced, t_bind, of_res, run_m, emit, t_ret.
  rewrite new_output_rows by lia.
  rewrite Hargs. rewrite !numel_pair.
  rewrite (infer_size_heads _ _ _ T0) by (try reflexivity; assumption).
  destruct (Z.eqb_spec (qk_head_dim layer) (v_head_dim layer)) as [E|_];
    cbn [negb]; [rewrite E|];
    rewrite (infer_size_heads _ _ _ T0) by (try reflexivity; assumption);
    rewrite <- !app_assoc; reflexivity.
Qed.

(** The sub-batch [0, 2] of four extend requests: four new tokens. *)
Lemma forward_extend_traced_ok_witness :
  exists w',
    forward_extend_traced [4; 8 * 192]
      (infer_size [-1; 8; 192] (numel [4; 8 * 192]))
      (infer_size [-1; 8; 128] (numel [4; 8 * 192]))
      LayerExamples.mla SubBatchExample.batch SubBatchExample.built []
    = (w',
       [SetKvBuffer 3; GetKeyBuffer 3; GetValueBuffer 3;
        ExtendAttentionFwd [4; 8; 192] [4; 8; 128]
          {| ea_seq_lens := Examples.lens [3; 2];
             ea_extend_seq_lens := Examples.lens [2; 2];
             ea_extend_start_loc := Examples.lens [0; 2];
             ea_max_extend_len := Some 2 |}],
       Ok [4; 8 * 128]).
Proof.
  eexists.
  apply (forward_extend_traced_ok LayerExamples.mla SubBatchExample.batch
           SubBatchExample.built [] 4); reflexivity.
Defined.

(** X19.  The two forward calls order the cache write and their checks
    differently.  [forward_decode] reshapes the query and unpacks the
    metadata first: without stored metadata, or with a query whose
    element count [H * Dqk] does not divide, it raises before any
    collaborator call.  [forward_extend] writes the cache first: without
    stored metadata it raises (once the output is allocated) with the
    cache write already made, and never reaches the kernel. *)
Theorem cache_write_order q q_view like_view layer fb w tr :
  (forward_metadata (self w) = None
   \/ (0 < tp_q_head_num layer * qk_head_dim layer
       /\ numel q mod (tp_q_head_num layer * qk_head_dim layer) <> 0) ->
   exists e, forward_decode_traced q layer fb w tr = (w, tr, Raise e))
  /\ (forward_metadata (self w) = None ->
      forall o, new_output q layer = Ok o ->
        exists w' e,
          forward_extend_traced q q_view like_view layer fb w tr
          = (w', tr ++ [SetKvBuffer (layer_id layer)], Raise e)).
Proof.
  split.
  - intros H.
    unfold forward_decode_traced, t_bind, of_res, run_m,
      unpack_forward_metadata, bind, get_self, raise.
    destruct H as [Hmd|[HP Hmod]].
    + destruct (infer_size _ (numel q)) as [q2|e]; [|eexists; reflexivity].
      destruct (new_output q2 layer) as [o|e]; [|eexists; reflexivity].
      rewrite Hmd. eexists. reflexivity.
    + rewrite infer_size_rows_error by assumption. eexists. reflexivity.
  - intros Hmd o Ho.
    destruct (forward_extend_no_metadata fb w Hmd) as (w' & e & Hfe).
    exists w', e.
    unfold forward_extend_traced, t_bind, of_res, run_m, emit.
    rewrite Ho, Hfe. reflexivity.
Qed.

(** The freshly constructed backend and a query of 5 tokens. *)
Lemma cache_write_order_witness :
  (exists e,
     forward_decode_traced [5; 8 * 128] LayerExamples.plain
       (Examples.decode_batch [4; 1; 7]) Examples.world []
     = (Examples.world, [], Raise e))
  /\ (exists w' e,
        forward_extend_traced [5; 8 * 128]
          (infer_size [-1; 8; 128] (numel [5; 8 * 128]))
          (infer_size [-1; 8; 128] (numel [5; 8 * 128])) LayerExamples.plain
          (Examples.extend_batch [10; 6] [8; 6]) Examples.world []
        = (w', [SetKvBuffer 3], Raise e)).
Proof.
  destruct (cache_write_order [5; 8 * 128]
              (infer_size [-1; 8; 128] (numel [5; 8 * 128]))
              (infer_size [-1; 8; 128] (numel [5; 8 * 128]))
              LayerExamples.plain (Examples.decode_batch [4; 1; 7])
              Examples.world []) as [H1 _].
  destruct (cache_write_order [5; 8 * 128]
              (infer_size [-1; 8; 128] (numel [5; 8 * 128]))
              (infer_size [-1; 8; 128] (numel [5; 8 * 128]))
              LayerExamples.plain (Examples.extend_batch [10; 6] [8; 6])
              Examples.world []) as [_ H2].
  split.
  - apply H1. left. reflexivity.
  - apply (H2 eq_refl [5; 8 * 128]). reflexivity.
Defined.

(** X20.  The calls of a forward method come in one order.  A returning
    call has made exactly the cache write, the two buffer reads and one
    kernel call, in this order.  A raising [forward_decode] has made no
    call, the cache write only, or the cache write and the two buffer
    reads; a raising [forward_extend] has made no call or the cache write
    only.  Neither calls the kernel and then raises. *)
Theorem forward_call_traces q q_view like_view layer fb w tr :
  (exists evs r,
     forward_decode_traced q layer fb w tr = (w, tr ++ evs, r)
     /\ match r with
        | Ok _ =>
            exists q3 o3 args,
              evs = [SetKvBuffer (layer_id layer);
                     GetKeyBuffer (layer_id layer);
                     GetValueBuffer (layer_id layer);
                     DecodeAttentionFwd q3 o3 args]
        | Raise _ =>
            evs = []
            \/ evs = [SetKvBuffer (layer_id layer)]
            \/ evs = [SetKvBuffer (layer_id layer);
                      GetKeyBuffer (layer_id layer);
                      GetValueBuffer (layer_id layer)]
        end)
  /\ (exists w' evs r,
        forward_extend_traced q q_view like_view layer fb w tr
        = (w', tr ++ evs, r)
        /\ match r with
           | Ok _ =>
               exists q3 o3 args,
                 evs = [SetKvBuffer (layer_id layer);
                        GetKeyBuffer (layer_id layer);
                        GetValueBuffer (layer_id layer);
                        ExtendAttentionFwd q3 o3 args]
           | Raise _ => evs = [] \/ evs = [SetKvBuffer (layer_id layer)]
           end).
Proof.
  split.
  - unfold forward_decode_traced, t_bind, of_res, run_m, emit, t_ret,
      unpack_forward_metadata, bind, get_self, raise, ret.
    destruct (infer_size _ (numel q)) as [q2|e].
    2: { exists [], (Raise e). rewrite app_nil_r. split; [reflexivity|]. auto. }
    destruct (new_output q2 layer) as [o|e].
    2: { exists [], (Raise e). rewrite app_nil_r. split; [reflexivity|]. auto. }
    destruct (forward_metadata (self w)) as [md|].
    2: { exists [], (Raise TypeError). rewrite app_nil_r.
         split; [reflexivity|]. auto. }
    destruct (effective_seq_lens fb) as [t|e].
    2: { eexists _, (Raise e). split; [reflexivity|]. auto. }
    destruct (infer_size _ (numel q2)) as [q3|e].
    2: { eexists _, (Raise e). split; [reflexivity|]. auto. }
    destruct (infer_size _ (numel o)) as [o3|e].
    2: { eexists _, (Raise e). rewrite <- !app_assoc.
         split; [reflexivity|]. auto. }
    eexists _, (Ok _). rewrite <- !app_assoc. split; [reflexivity|].
    eexists _, _, _. reflexivity.
  - unfold forward_extend_traced, t_bind, of_res, run_m, emit, t_ret.
    destruct (new_output q layer) as [o|e].
    2: { exists w, [], (Raise e). rewrite app_nil_r.
         split; [reflexivity|]. auto. }
    destruct (forward_extend fb w) as [w' [args|e]].
    2: { eexists w', _, (Raise e). split; [reflexivity|]. auto. }
    destruct q_view as [q3|e].
    2: { eexists w', _, (Raise e). split; [reflexivity|]. auto. }
    destruct (if negb _ then _ else like_view) as [o3|e].
    2: { eexists w', _, (Raise e). split; [reflexivity|]. auto. }
    eexists w', _, (Ok _). rewrite <- !app_assoc. split; [reflexivity|].
    eexists _, _, _. reflexivity.
Qed.
